(** * ResumeAI: the transformer and the document renderer of [app.py]

    [app.py] has two functional units: [get_ai_resume], which sends a prompt
    to a generative backend and decodes the JSON answer, and [create_pdf],
    which walks the decoded dictionary and drives the fpdf layout engine.
    Both are embedded here over untyped Python values, with exceptions as an
    explicit result type and the layout engine as one [FPDF] object: the
    calls made on it, its cursor, and the two errors it raises.  The rest
    of the script, the page that Streamlit draws, follows. *)

From Stdlib Require Import String Ascii List ZArith Bool Lia DecimalString.
Import ListNotations.
Local Open Scope string_scope.

(** ** Python values and the builtins the program uses *)

Module Py.

(** What [json.loads] can return.  A [str] is kept as its UTF-8 bytes; a
    float is kept as the numeral the decoder read (["nan"], ["inf"] and
    ["-inf"] for the three constants). *)
#[local] Unset Elimination Schemes.
Inductive value : Type :=
| VNone
| VBool (b : bool)
| VInt (z : Z)
| VFloat (lit : string)
| VStr (s : string)
| VList (items : list value)
| VDict (kvs : list (string * value)).
#[local] Set Elimination Schemes.

(** An exception: its class and [str(e)]. *)
Record exn : Type := Exn { exn_class : string; exn_str : string }.

Inductive result (A : Type) : Type :=
| Ok (a : A)
| Raise (e : exn).
Arguments Ok {A} a.
Arguments Raise {A} e.

Definition bind {A B : Type} (r : result A) (k : A -> result B) : result B :=
  match r with
  | Ok a => k a
  | Raise e => Raise e
  end.

Definition dq : string := String "034"%char "".
Definition sq : string := String "039"%char "".
Definition nl : string := String "010"%char "".
Definition backslash : string := String "092"%char "".

Definition type_name (v : value) : string :=
  match v with
  | VNone => "NoneType"
  | VBool _ => "bool"
  | VInt _ => "int"
  | VFloat _ => "float"
  | VStr _ => "str"
  | VList _ => "list"
  | VDict _ => "dict"
  end.

(** *** Text *)

Definition str_of_Z (z : Z) : string := NilEmpty.string_of_int (Z.to_int z).
Definition str_of_nat (n : nat) : string := str_of_Z (Z.of_nat n).

Fixpoint contains_char (c : ascii) (s : string) : bool :=
  match s with
  | EmptyString => false
  | String d s' => Ascii.eqb c d || contains_char c s'
  end.

Definition hex_digit (n : nat) : ascii :=
  if Nat.ltb n 10 then ascii_of_nat (48 + n) else ascii_of_nat (87 + n).

Definition hex2 (c : ascii) : string :=
  let n := nat_of_ascii c in
  String (hex_digit (Nat.div n 16)) (String (hex_digit (Nat.modulo n 16)) "").

(** [repr] of a [str]: single quotes unless the text has a single quote and
    no double quote; the quote, the backslash and the ASCII control
    characters escaped.  Bytes of non-ASCII characters are left as they are
    (Python escapes the non-printable ones among them). *)
Fixpoint escape_repr (q : ascii) (s : string) : string :=
  match s with
  | EmptyString => ""
  | String c s' =>
      let n := nat_of_ascii c in
      (if Ascii.eqb c q || Ascii.eqb c "092"%char then backslash ++ String c ""
       else if Nat.eqb n 10 then backslash ++ "n"
       else if Nat.eqb n 13 then backslash ++ "r"
       else if Nat.eqb n 9 then backslash ++ "t"
       else if Nat.ltb n 32 || Nat.eqb n 127 then backslash ++ "x" ++ hex2 c
       else String c "") ++ escape_repr q s'
  end.

Definition repr_str (s : string) : string :=
  let q : ascii :=
    if contains_char "039"%char s && negb (contains_char "034"%char s)
    then "034"%char else "039"%char in
  String q "" ++ escape_repr q s ++ String q "".

Fixpoint py_repr (v : value) : string :=
  match v with
  | VNone => "None"
  | VBool true => "True"
  | VBool false => "False"
  | VInt z => str_of_Z z
  | VFloat lit => lit
  | VStr s => repr_str s
  | VList items => "[" ++ String.concat ", " (map py_repr items) ++ "]"
  | VDict kvs =>
      "{" ++ String.concat ", "
               (map (fun kv => repr_str (fst kv) ++ ": " ++ py_repr (snd kv)) kvs)
          ++ "}"
  end.

(** [str(v)], which is also what an f-string field [{v}] prints. *)
Definition py_str (v : value) : string :=
  match v with
  | VStr s => s
  | _ => py_repr v
  end.

(** *** Exceptions raised by the builtins *)

Definition KeyError (key : value) : exn := Exn "KeyError" (py_repr key).
Definition TypeError (msg : string) : exn := Exn "TypeError" msg.
Definition IndexError (msg : string) : exn := Exn "IndexError" msg.
Definition AttributeError (v : value) (attr : string) : exn :=
  Exn "AttributeError"
      (sq ++ type_name v ++ "' object has no attribute '" ++ attr ++ sq).

(** *** Truth value *)

Definition is_digit (c : ascii) : bool :=
  let n := nat_of_ascii c in Nat.leb 48 n && Nat.leb n 57.

Fixpoint digits_value (acc : Z) (s : string) : Z :=
  match s with
  | EmptyString => acc
  | String c s' =>
      if is_digit c then digits_value (10 * acc + Z.of_nat (nat_of_ascii c - 48)) s'
      else digits_value acc s'
  end.

(** The numeral [lit] cut at its first [e] or [E]: mantissa and exponent text. *)
Fixpoint split_exponent (lit : string) : string * string :=
  match lit with
  | EmptyString => ("", "")
  | String c s' =>
      if Ascii.eqb c "e"%char || Ascii.eqb c "E"%char then ("", s')
      else let (m, e) := split_exponent s' in (String c m, e)
  end.

Fixpoint after_point (s : string) : string :=
  match s with
  | EmptyString => ""
  | String c s' => if Ascii.eqb c "."%char then s' else after_point s'
  end.

(** Whether [float(lit)] is zero: a decimal [m * 10^e] rounds to zero exactly
    when it is at most [2^-1075], half the least subnormal. *)
Definition float_is_zero (lit : string) : bool :=
  if String.eqb lit "nan" || String.eqb lit "inf" || String.eqb lit "-inf" then false
  else
    let (mant, expo) := split_exponent lit in
    let m := digits_value 0 mant in
    let e :=
      ((if prefix "-" expo then - digits_value 0 expo else digits_value 0 expo)
       - Z.of_nat (String.length (after_point mant)))%Z in
    (m =? 0)%Z || ((e <? 0)%Z && (m * 2 ^ 1075 <=? 10 ^ (- e))%Z).

Definition truthy (v : value) : bool :=
  match v with
  | VNone => false
  | VBool b => b
  | VInt z => negb (z =? 0)%Z
  | VFloat lit => negb (float_is_zero lit)
  | VStr s => negb (String.eqb s "")
  | VList items => match items with [] => false | _ :: _ => true end
  | VDict kvs => match kvs with [] => false | _ :: _ => true end
  end.

(** *** Dictionaries, indexing, iteration *)

Fixpoint dict_get (kvs : list (string * value)) (k : string) : option value :=
  match kvs with
  | [] => None
  | (k', v) :: rest => if String.eqb k k' then Some v else dict_get rest k
  end.

(** [d[k] = v]: the value of an existing key is replaced in place, a new
    key goes to the end. *)
Fixpoint dict_set (kvs : list (string * value)) (k : string) (v : value)
  : list (string * value) :=
  match kvs with
  | [] => [(k, v)]
  | (k', v') :: rest =>
      if String.eqb k k' then (k', v) :: rest else (k', v') :: dict_set rest k v
  end.

(** [v.get(k, default)]; only a dict has the method. *)
Definition get (v : value) (k : string) (default : value) : result value :=
  match v with
  | VDict kvs =>
      match dict_get kvs k with
      | Some x => Ok x
      | None => Ok default
      end
  | _ => Raise (AttributeError v "get")
  end.

(** The characters of a [str]: a byte [10xxxxxx] continues the character
    before it. *)
Definition is_continuation (c : ascii) : bool :=
  let n := nat_of_ascii c in Nat.leb 128 n && Nat.ltb n 192.

Definition continues (s : string) : bool :=
  match s with
  | EmptyString => false
  | String d _ => is_continuation d
  end.

Fixpoint chars (s : string) : list string :=
  match s with
  | EmptyString => []
  | String c s' =>
      match chars s' with
      | h :: t => if continues s' then String c h :: t else String c "" :: h :: t
      | [] => [String c ""]
      end
  end.

Definition index_list {A : Type} (l : list A) (i : Z) : option A :=
  let n := Z.of_nat (List.length l) in
  let j := if (i <? 0)%Z then (i + n)%Z else i in
  if (j <? 0)%Z then None else nth_error l (Z.to_nat j).

Definition getitem_int (v : value) (i : Z) : result value :=
  match v with
  | VList items =>
      match index_list items i with
      | Some x => Ok x
      | None => Raise (IndexError "list index out of range")
      end
  | VStr s =>
      match index_list (chars s) i with
      | Some c => Ok (VStr c)
      | None => Raise (IndexError "string index out of range")
      end
  | VDict _ => Raise (KeyError (VInt i))
  | _ => Raise (TypeError (sq ++ type_name v ++ "' object is not subscriptable"))
  end.

(** [v[k]] for a [str] key [k]. *)
Definition getitem_str (v : value) (k : string) : result value :=
  match v with
  | VDict kvs =>
      match dict_get kvs k with
      | Some x => Ok x
      | None => Raise (KeyError (VStr k))
      end
  | VList _ => Raise (TypeError "list indices must be integers or slices, not str")
  | VStr _ => Raise (TypeError "string indices must be integers, not 'str'")
  | _ => Raise (TypeError (sq ++ type_name v ++ "' object is not subscriptable"))
  end.

(** What a [for] loop or [join] walks over. *)
Definition iterate (v : value) : option (list value) :=
  match v with
  | VList items => Some items
  | VStr s => Some (map VStr (chars s))
  | VDict kvs => Some (map (fun kv => VStr (fst kv)) kvs)
  | _ => None
  end.

Definition iter (v : value) : result (list value) :=
  match iterate v with
  | Some items => Ok items
  | None => Raise (TypeError (sq ++ type_name v ++ "' object is not iterable"))
  end.

Fixpoint join_items (i : nat) (items : list value) : result (list string) :=
  match items with
  | [] => Ok []
  | VStr s :: rest => bind (join_items (S i) rest) (fun ss => Ok (s :: ss))
  | v :: _ =>
      Raise (TypeError ("sequence item " ++ str_of_nat i
                          ++ ": expected str instance, " ++ type_name v ++ " found"))
  end.

(** [sep.join(v)] *)
Definition join (sep : string) (v : value) : result string :=
  match iterate v with
  | Some items => bind (join_items 0 items) (fun ss => Ok (String.concat sep ss))
  | None => Raise (TypeError "can only join an iterable")
  end.

(** [a + b] where one of the operands is a [str], the only use the program
    makes of [+]: two [str] are concatenated, anything else raises. *)
Definition add (a b : value) : result string :=
  match a, b with
  | VStr x, VStr y => Ok (x ++ y)
  | VStr _, _ =>
      Raise (TypeError ("can only concatenate str (not " ++ dq ++ type_name b
                          ++ dq ++ ") to str"))
  | VList _, _ =>
      Raise (TypeError ("can only concatenate list (not " ++ dq ++ type_name b
                          ++ dq ++ ") to list"))
  | _, _ =>
      Raise (TypeError ("unsupported operand type(s) for +: '" ++ type_name a
                          ++ "' and '" ++ type_name b ++ sq))
  end.

(** [s.replace(old, new)] for a non-empty [old]: the occurrences of [old]
    are found from the left and do not overlap.  [skip] counts the
    characters of a match still to be dropped. *)
Fixpoint replace_from (skip : nat) (old new s : string) : string :=
  match s with
  | EmptyString => ""
  | String c s' =>
      match skip with
      | S k => replace_from k old new s'
      | O =>
          if prefix old s
          then new ++ replace_from (String.length old - 1) old new s'
          else String c (replace_from 0 old new s')
      end
  end.

Definition replace (old new s : string) : string := replace_from 0 old new s.

End Py.

Import Py.

(** ** The JSON decoder

    [json.loads] on a [str], after CPython's scanner: the grammar of RFC 8259
    with the constants [NaN], [Infinity] and [-Infinity], strict strings,
    the last of two equal keys kept.  A failure is the message and the
    character index of [JSONDecodeError].  The interpreter's limits (the
    recursion limit, the digit limit of integers) are not part of the model:
    the decoder is given two units of fuel per character, which is always
    enough (see [json_loads_fuel]). *)

Module Json.

Inductive parsed (A : Type) : Type :=
| POk (a : A) (pos : nat) (rest : string)
| PErr (msg : string) (pos : nat)
| PFuel.
Arguments POk {A} a pos rest.
Arguments PErr {A} msg pos.
Arguments PFuel {A}.

Definition is_ws (c : ascii) : bool :=
  Ascii.eqb c " "%char || Ascii.eqb c "009"%char
  || Ascii.eqb c "010"%char || Ascii.eqb c "013"%char.

Fixpoint skip_ws (pos : nat) (s : string) : nat * string :=
  match s with
  | String c s' => if is_ws c then skip_ws (S pos) s' else (pos, s)
  | EmptyString => (pos, s)
  end.

(** One character further: a continuation byte does not start a character. *)
Definition step (pos : nat) (c : ascii) : nat :=
  if is_continuation c then pos else S pos.

Definition hex_value (c : ascii) : option N :=
  let n := N_of_ascii c in
  if (48 <=? n)%N && (n <=? 57)%N then Some (n - 48)%N
  else if (97 <=? n)%N && (n <=? 102)%N then Some (n - 87)%N
  else if (65 <=? n)%N && (n <=? 70)%N then Some (n - 55)%N
  else None.

Definition hex4 (a b c d : ascii) : option N :=
  match hex_value a, hex_value b, hex_value c, hex_value d with
  | Some x, Some y, Some z, Some w => Some (((x * 16 + y) * 16 + z) * 16 + w)%N
  | _, _, _, _ => None
  end.

Definition byte (n : N) : ascii := ascii_of_N n.

(** [chr(u)] as UTF-8 (a lone surrogate takes the three-byte form). *)
Definition utf8 (u : N) : string :=
  if (u <? 128)%N then String (byte u) ""
  else if (u <? 2048)%N then
    String (byte (192 + u / 64)) (String (byte (128 + u mod 64)) "")
  else if (u <? 65536)%N then
    String (byte (224 + u / 4096))
      (String (byte (128 + (u / 64) mod 64)) (String (byte (128 + u mod 64)) ""))
  else
    String (byte (240 + u / 262144))
      (String (byte (128 + (u / 4096) mod 64))
         (String (byte (128 + (u / 64) mod 64)) (String (byte (128 + u mod 64)) ""))).

Definition is_high_surrogate (u : N) : bool := (55296 <=? u)%N && (u <=? 56319)%N.
Definition is_low_surrogate (u : N) : bool := (56320 <=? u)%N && (u <=? 57343)%N.

Definition simple_escape (c : ascii) : option string :=
  if Ascii.eqb c "034"%char then Some dq
  else if Ascii.eqb c "092"%char then Some backslash
  else if Ascii.eqb c "/"%char then Some "/"
  else if Ascii.eqb c "b"%char then Some (String "008"%char "")
  else if Ascii.eqb c "f"%char then Some (String "012"%char "")
  else if Ascii.eqb c "n"%char then Some nl
  else if Ascii.eqb c "r"%char then Some (String "013"%char "")
  else if Ascii.eqb c "t"%char then Some (String "009"%char "")
  else None.

Definition prepend {A : Type} (f : A -> A) (p : parsed A) : parsed A :=
  match p with
  | POk a pos rest => POk (f a) pos rest
  | PErr msg pos => PErr msg pos
  | PFuel => PFuel
  end.

(** What follows a backslash: the text the escape stands for and the number
    of characters it takes after the backslash, or the error.  [pos] is the
    index of the backslash.  A [\u] escape needs its four digits and one
    more character after them; a high surrogate followed by the escape of a
    low surrogate makes one character with it. *)
Inductive escape : Type :=
| Escaped (text : string) (len : nat)
| BadEscape (msg : string) (pos : nat)
| NoEscape.

Definition scan_escape (pos : nat) (s1 : string) : escape :=
  match s1 with
  | EmptyString => NoEscape
  | String e s2 =>
      if Ascii.eqb e "u"%char then
        match s2 with
        | String h1 (String h2 (String h3 (String h4 (String _ _ as s3)))) =>
            match hex4 h1 h2 h3 h4 with
            | None => BadEscape "Invalid \uXXXX escape" (S pos)
            | Some u =>
                match s3 with
                | String b (String v (String k1 (String k2 (String k3
                    (String k4 (String _ _)))))) =>
                    if is_high_surrogate u && Ascii.eqb b "092"%char
                       && Ascii.eqb v "u"%char
                    then
                      match hex4 k1 k2 k3 k4 with
                      | None => BadEscape "Invalid \uXXXX escape" (pos + 7)
                      | Some u2 =>
                          if is_low_surrogate u2
                          then Escaped (utf8 (65536 + (u - 55296) * 1024
                                              + (u2 - 56320))%N) 11
                          else Escaped (utf8 u) 5
                      end
                    else Escaped (utf8 u) 5
                | _ => Escaped (utf8 u) 5
                end
            end
        | _ => BadEscape "Invalid \uXXXX escape" (S pos)
        end
      else
        match simple_escape e with
        | Some t => Escaped t 1
        | None => BadEscape "Invalid \escape" pos
        end
  end.

(** The body of a string, from just after its opening quote (which is at
    [begin]) to just after its closing quote.  [skip] counts the characters
    of an escape still to be passed over. *)
Fixpoint scanstring (skip begin pos : nat) (s : string) : parsed string :=
  match s with
  | EmptyString => PErr "Unterminated string starting at" begin
  | String c s1 =>
      match skip with
      | S k => scanstring k begin pos s1
      | O =>
          if Ascii.eqb c "034"%char then POk "" (S pos) s1
          else if Ascii.eqb c "092"%char then
            match scan_escape pos s1 with
            | Escaped t len => prepend (append t) (scanstring len begin (S pos + len) s1)
            | BadEscape msg p => PErr msg p
            | NoEscape => PErr "Unterminated string starting at" begin
            end
          else if Nat.ltb (nat_of_ascii c) 32
          then PErr "Invalid control character at" pos
          else prepend (String c) (scanstring 0 begin (step pos c) s1)
      end
  end.

Fixpoint take_digits (s : string) : string * string :=
  match s with
  | String c s' =>
      if is_digit c then let (ds, r) := take_digits s' in (String c ds, r) else ("", s)
  | EmptyString => ("", s)
  end.

(** The integer part: an optional minus, then [0] alone or a digit [1-9]
    and any digits. *)
Definition scan_integer (s : string) : option (string * string) :=
  let (sign, s0) :=
    match s with
    | String c s' => if Ascii.eqb c "-"%char then ("-", s') else ("", s)
    | EmptyString => ("", s)
    end in
  match s0 with
  | String c s' =>
      if Ascii.eqb c "0"%char then Some (sign ++ "0", s')
      else if is_digit c then
        let (ds, r) := take_digits s' in Some (sign ++ String c ds, r)
      else None
  | EmptyString => None
  end.

(** The fraction, if any: a point and at least one digit. *)
Definition scan_fraction (s : string) : string * string :=
  match s with
  | String p (String d s') =>
      if Ascii.eqb p "."%char && is_digit d then
        let (ds, r) := take_digits s' in (String p (String d ds), r)
      else ("", s)
  | _ => ("", s)
  end.

(** The exponent, if any: [e] or [E], an optional sign, at least one digit. *)
Definition scan_exponent (s : string) : string * string :=
  match s with
  | String e (String x s') =>
      if Ascii.eqb e "e"%char || Ascii.eqb e "E"%char then
        if is_digit x then
          let (ds, r) := take_digits s' in (String e (String x ds), r)
        else if Ascii.eqb x "-"%char || Ascii.eqb x "+"%char then
          match s' with
          | String d s'' =>
              if is_digit d then
                let (ds, r) := take_digits s'' in
                (String e (String x (String d ds)), r)
              else ("", s)
          | EmptyString => ("", s)
          end
        else ("", s)
      else ("", s)
  | _ => ("", s)
  end.

Definition int_of_numeral (num : string) : Z :=
  if prefix "-" num then (- digits_value 0 num)%Z else digits_value 0 num.

Definition scan_number (pos : nat) (s : string) : parsed value :=
  match scan_integer s with
  | None => PErr "Expecting value" pos
  | Some (int, r1) =>
      let (frac, r2) := scan_fraction r1 in
      let (expo, r3) := scan_exponent r2 in
      let num := int ++ frac ++ expo in
      POk (if String.eqb frac "" && String.eqb expo ""
           then VInt (int_of_numeral int) else VFloat num)
          (pos + String.length num) r3
  end.

(** [s] begins with the word [w]: what is left after it. *)
Fixpoint after_word (w s : string) : option string :=
  match w with
  | EmptyString => Some s
  | String a w' =>
      match s with
      | String b s' => if Ascii.eqb a b then after_word w' s' else None
      | EmptyString => None
      end
  end.

Definition scan_atom (pos : nat) (s : string) : parsed value :=
  match after_word "null" s, after_word "true" s, after_word "false" s with
  | Some r, _, _ => POk VNone (pos + 4) r
  | _, Some r, _ => POk (VBool true) (pos + 4) r
  | _, _, Some r => POk (VBool false) (pos + 5) r
  | _, _, _ =>
      match after_word "NaN" s, after_word "Infinity" s, after_word "-Infinity" s with
      | Some r, _, _ => POk (VFloat "nan") (pos + 3) r
      | _, Some r, _ => POk (VFloat "inf") (pos + 8) r
      | _, _, Some r => POk (VFloat "-inf") (pos + 9) r
      | _, _, _ => scan_number pos s
      end
  end.

(** [scan_once] reads one JSON term at [s]; [array_items] and
    [object_items] run the loops of an array and of an object from the
    place where the next term, or the next key, is expected. *)
Fixpoint scan_once (fuel : nat) (pos : nat) (s : string) {struct fuel} : parsed value :=
  match fuel with
  | O => PFuel
  | S fuel' =>
      match s with
      | EmptyString => PErr "Expecting value" pos
      | String c s1 =>
          if Ascii.eqb c "034"%char then
            match scanstring 0 pos (S pos) s1 with
            | POk t pos' rest => POk (VStr t) pos' rest
            | PErr msg p => PErr msg p
            | PFuel => PFuel
            end
          else if Ascii.eqb c "{"%char then
            let (p1, r1) := skip_ws (S pos) s1 in
            match after_word "}" r1 with
            | Some r2 => POk (VDict []) (S p1) r2
            | None =>
                match object_items fuel' p1 r1 [] with
                | POk kvs pos' rest => POk (VDict kvs) pos' rest
                | PErr msg p => PErr msg p
                | PFuel => PFuel
                end
            end
          else if Ascii.eqb c "["%char then
            let (p1, r1) := skip_ws (S pos) s1 in
            match after_word "]" r1 with
            | Some r2 => POk (VList []) (S p1) r2
            | None =>
                match array_items fuel' p1 r1 with
                | POk items pos' rest => POk (VList items) pos' rest
                | PErr msg p => PErr msg p
                | PFuel => PFuel
                end
            end
          else scan_atom pos s
      end
  end

with array_items (fuel : nat) (pos : nat) (s : string) {struct fuel}
  : parsed (list value) :=
  match fuel with
  | O => PFuel
  | S fuel' =>
      match scan_once fuel' pos s with
      | PErr msg p => PErr msg p
      | PFuel => PFuel
      | POk v p1 r1 =>
          let (p2, r2) := skip_ws p1 r1 in
          match r2 with
          | String c r3 =>
              if Ascii.eqb c "]"%char then POk [v] (S p2) r3
              else if Ascii.eqb c ","%char then
                let (p4, r4) := skip_ws (S p2) r3 in
                prepend (cons v) (array_items fuel' p4 r4)
              else PErr "Expecting ',' delimiter" p2
          | EmptyString => PErr "Expecting ',' delimiter" p2
          end
      end
  end

with object_items (fuel : nat) (pos : nat) (s : string)
       (acc : list (string * value)) {struct fuel}
  : parsed (list (string * value)) :=
  match fuel with
  | O => PFuel
  | S fuel' =>
      match after_word dq s with
      | None => PErr "Expecting property name enclosed in double quotes" pos
      | Some s1 =>
          match scanstring 0 pos (S pos) s1 with
          | PErr msg p => PErr msg p
          | PFuel => PFuel
          | POk key p1 r1 =>
              let (p2, r2) := skip_ws p1 r1 in
              match after_word ":" r2 with
              | None => PErr "Expecting ':' delimiter" p2
              | Some r3 =>
                  let (p4, r4) := skip_ws (S p2) r3 in
                  match scan_once fuel' p4 r4 with
                  | PErr msg p => PErr msg p
                  | PFuel => PFuel
                  | POk v p5 r5 =>
                      let acc' := dict_set acc key v in
                      let (p6, r6) := skip_ws p5 r5 in
                      match r6 with
                      | String c r7 =>
                          if Ascii.eqb c "}"%char then POk acc' (S p6) r7
                          else if Ascii.eqb c ","%char then
                            let (p8, r8) := skip_ws (S p6) r7 in
                            object_items fuel' p8 r8 acc'
                          else PErr "Expecting ',' delimiter" p6
                      | EmptyString => PErr "Expecting ',' delimiter" p6
                      end
                  end
              end
          end
      end
  end.

(** *** [JSONDecodeError]: message, line, column and character index *)

Fixpoint line_col (pos : nat) (line col : nat) (cs : list string) : nat * nat :=
  match pos, cs with
  | S pos', c :: cs' =>
      if String.eqb c nl then line_col pos' (S line) 1 cs'
      else line_col pos' line (S col) cs'
  | _, _ => (line, col)
  end.

Definition JSONDecodeError (msg doc : string) (pos : nat) : exn :=
  let (line, col) := line_col pos 1 1 (chars doc) in
  Exn "JSONDecodeError"
      (msg ++ ": line " ++ str_of_nat line ++ " column " ++ str_of_nat col
           ++ " (char " ++ str_of_nat pos ++ ")").

Definition bom : string := String "239"%char (String "187"%char (String "191"%char "")).

(** [json.loads(doc)] *)
Definition json_loads (doc : string) : result value :=
  if prefix bom doc
  then Raise (JSONDecodeError "Unexpected UTF-8 BOM (decode using utf-8-sig)" doc 0)
  else
    let (p0, r0) := skip_ws 0 doc in
    match scan_once (S (2 * String.length doc)) p0 r0 with
    | PErr msg p => Raise (JSONDecodeError msg doc p)
    | PFuel =>
        Raise (Exn "RecursionError" "maximum recursion depth exceeded")
    | POk v p1 r1 =>
        let (p2, r2) := skip_ws p1 r1 in
        match r2 with
        | EmptyString => Ok v
        | String _ _ => Raise (JSONDecodeError "Extra data" doc p2)
        end
    end.

(** A result that is not a lack of fuel and, when it is a value, leaves less
    than [n] characters to read. *)
Definition within {A : Type} (n : nat) (p : parsed A) : Prop :=
  match p with
  | POk _ _ rest => String.length rest < n
  | PErr _ _ => True
  | PFuel => False
  end.

End Json.

Import Json.

(** ** The layout engine

    [create_pdf] builds one [FPDF] object and calls [add_page], [set_font],
    [cell], [multi_cell] and [ln] on it.  The fpdf package is not part of
    the program; what is kept of it here is what decides whether a call
    returns:

    - the calls that returned, in order ([log]);
    - the abscissa of the cursor ([x]), in millimetres, the default unit,
      on the default page (A4 upright, 210 wide, the margins 10 and the
      inner margin of a cell 1; the true width is 210.0016, and only the
      sign of the room left for a text matters below);
    - the font in use, which names the font in an encoding error.

    A text drawn in one of the core fonts is encoded in latin-1, and a
    [multi_cell] needs room for one character.  The ordinate of the cursor
    is left out: a page that is full is followed by a new one and the
    abscissa is kept.  Fonts other than the core ones and their aliases,
    and calls before [add_page] or [set_font], are outside this model; the
    program has neither. *)

Notation "x <- e ;; k" := (bind e (fun x => k))
  (at level 61, e at next level, right associativity).

Module Fpdf.

Inductive call : Type :=
| AddPage
| SetFont (family style : string) (size : Z)
| Cell (w h : Z) (text : string) (new_y new_x : string)
| MultiCell (w h : Z) (text : string)
| Ln (h : Z).

Record FPDF : Type := {
  log : list call;
  x : Z;
  font_family : string;
  font_style : string
}.

Definition page_w : Z := 210.
Definition l_margin : Z := 10.
Definition r_margin : Z := 10.
Definition c_margin : Z := 1.

Definition FPDFException (msg : string) : exn := Exn "FPDFException" msg.

Definition FPDFUnicodeEncodingException (text_index : nat) (character font_name : string)
  : exn :=
  Exn "FPDFUnicodeEncodingException"
      ("Character " ++ dq ++ character ++ dq ++ " at index " ++ str_of_nat text_index
         ++ " in text is outside the range of characters supported by the font used: "
         ++ dq ++ font_name ++ dq ++ ". Please consider using a Unicode font.").

Definition FPDF_new : FPDF :=
  {| log := []; x := l_margin; font_family := ""; font_style := "" |}.

Definition add_page (pdf : FPDF) : FPDF :=
  {| log := log pdf ++ [AddPage]; x := l_margin;
     font_family := font_family pdf; font_style := font_style pdf |}.

Definition lower (c : ascii) : ascii :=
  let n := nat_of_ascii c in
  if Nat.leb 65 n && Nat.leb n 90 then ascii_of_nat (n + 32) else c.

Definition upper (c : ascii) : ascii :=
  let n := nat_of_ascii c in
  if Nat.leb 97 n && Nat.leb n 122 then ascii_of_nat (n - 32) else c.

Fixpoint map_ascii (f : ascii -> ascii) (s : string) : string :=
  match s with
  | EmptyString => EmptyString
  | String c s' => String (f c) (map_ascii f s')
  end.

(** The core font that stands for a family. *)
Definition font_alias (family : string) : string :=
  if String.eqb family "arial" then "helvetica"
  else if String.eqb family "couriernew" then "courier"
  else if String.eqb family "timesnewroman" then "times"
  else family.

Definition set_font (pdf : FPDF) (family style : string) (size : Z) : FPDF :=
  {| log := log pdf ++ [SetFont family style size]; x := x pdf;
     font_family := font_alias (map_ascii lower family);
     font_style := map_ascii upper style |}.

(** A character is in latin-1 when its code point is below 256: in UTF-8,
    when its first byte is below [0xC4]. *)
Definition in_latin1 (character : string) : bool :=
  match character with
  | EmptyString => true
  | String b _ => Nat.ltb (nat_of_ascii b) 196
  end.

(** The first character outside latin-1, with its index. *)
Fixpoint first_outside (i : nat) (characters : list string) : option (nat * string) :=
  match characters with
  | [] => None
  | c :: rest => if in_latin1 c then first_outside (S i) rest else Some (i, c)
  end.

Definition latin1 (text : string) : bool :=
  match first_outside 0 (chars text) with
  | None => true
  | Some _ => false
  end.

(** The encoding of a text for the core font in use. *)
Definition normalize_text (pdf : FPDF) (text : string) : result string :=
  match first_outside 0 (chars text) with
  | None => Ok text
  | Some (i, c) =>
      Raise (FPDFUnicodeEncodingException i c (font_family pdf ++ font_style pdf))
  end.

(** Where the cursor is left, by [new_x].  The positions that depend on the
    width of the text ("START", "END", "WCONT", "CENTER") are not
    modelled; the program passes "LMARGIN" or nothing. *)
Definition x_after (new_x : string) (x0 w : Z) : Z :=
  if String.eqb new_x "LMARGIN" then l_margin
  else if String.eqb new_x "RMARGIN" then page_w - r_margin
  else if String.eqb new_x "LEFT" then x0
  else x0 + w.

(** A width of 0 stands for the width up to the right margin. *)
Definition width (pdf : FPDF) (w : Z) : Z :=
  if (w =? 0)%Z then page_w - r_margin - x pdf else w.

(** [pdf.cell(w, h, text, new_y=..., new_x=...)]: the text is encoded and
    drawn on one line, however wide the cell is. *)
Definition cell (pdf : FPDF) (w h : Z) (text : string) (new_y new_x : string)
  : result FPDF :=
  _ <- normalize_text pdf text ;;
  Ok {| log := log pdf ++ [Cell w h text new_y new_x];
        x := x_after new_x (x pdf) (width pdf w);
        font_family := font_family pdf; font_style := font_style pdf |}.

(** A text with nothing to draw: spaces and line breaks. *)
Fixpoint blank (text : string) : bool :=
  match text with
  | EmptyString => true
  | String c rest =>
      (Ascii.eqb c " " || Ascii.eqb c "010" || Ascii.eqb c "013")%char && blank rest
  end.

(** [pdf.multi_cell(w, h, text)]: the text is encoded and broken into lines
    of the width of the cell less its inner margins; a character that finds
    no room on a line of its own is an error.  The cursor is left at the
    right of the cell ([new_x] is "RIGHT" when it is not given).  A
    character has a positive width, so none finds room in a width that is
    not positive; a width of a few millimetres, where the glyph decides,
    does not arise in the program. *)
Definition multi_cell (pdf : FPDF) (w h : Z) (text : string) : result FPDF :=
  let w' := width pdf w in
  _ <- normalize_text pdf text ;;
  if (w' - 2 * c_margin <=? 0)%Z && negb (blank text)
  then Raise (FPDFException "Not enough horizontal space to render a single character")
  else Ok {| log := log pdf ++ [MultiCell w h text];
             x := x pdf + w';
             font_family := font_family pdf; font_style := font_style pdf |}.

Definition ln (pdf : FPDF) (h : Z) : FPDF :=
  {| log := log pdf ++ [Ln h]; x := l_margin;
     font_family := font_family pdf; font_style := font_style pdf |}.

(** [bytes(pdf.output(dest='S'))]: the document is serialised from the
    calls and stamped with the time of its creation, which is written in
    [/CreationDate], to the second, and hashed into [/ID]. *)
Inductive bytes : Type := Output (pages : list call) (creation_date : Z).

Definition output (pdf : FPDF) (now : Z) : bytes := Output (log pdf) now.

End Fpdf.

Import Fpdf.

(** ** The program *)

(** A [for] loop whose body updates the state [st] and may raise. *)
Fixpoint for_each {S : Type} (items : list value) (body : value -> S -> result S)
  (st : S) : result S :=
  match items with
  | [] => Ok st
  | x :: rest => bind (body x st) (for_each rest body)
  end.

Definition quoted (s : string) : string := dq ++ s ++ dq.

(** The f-string of [get_ai_resume]. *)
Definition prompt (raw_text style : string) : string :=
  nl
  ++ "    You are an expert Resume Engineer." ++ nl
  ++ "    Task: Convert this unstructured text into professional JSON data." ++ nl
  ++ "    Input: " ++ quoted raw_text ++ nl
  ++ "    " ++ nl
  ++ "    RULES:" ++ nl
  ++ "    1. Professional Tone: Change simple words (e.g. " ++ quoted "fixed" ++ ") to professional ones (e.g. " ++ quoted "Resolved complex faults" ++ ")." ++ nl
  ++ "    2. Style Constraint: Ensure the language and tone reflect a " ++ style ++ " style resume. Drastically change the verb usage and tone between the options." ++ nl
  ++ "    3. Format: Output strictly valid JSON." ++ nl
  ++ "    4. Schema:" ++ nl
  ++ "    {" ++ nl
  ++ "        " ++ quoted "name" ++ ": " ++ quoted "String" ++ "," ++ nl
  ++ "        " ++ quoted "title" ++ ": " ++ quoted "String" ++ "," ++ nl
  ++ "        " ++ quoted "summary" ++ ": " ++ quoted "String" ++ "," ++ nl
  ++ "        " ++ quoted "contact" ++ ": {" ++ nl
  ++ "            " ++ quoted "email" ++ ": " ++ quoted "String" ++ "," ++ nl
  ++ "            " ++ quoted "phone" ++ ": " ++ quoted "String" ++ "," ++ nl
  ++ "            " ++ quoted "linkedin" ++ ": " ++ quoted "String (Optional)" ++ nl
  ++ "        }," ++ nl
  ++ "        " ++ quoted "skills" ++ ": [" ++ quoted "String" ++ ", " ++ quoted "String" ++ ", " ++ quoted "String" ++ "]," ++ nl
  ++ "        " ++ quoted "education" ++ ": [" ++ nl
  ++ "            {" ++ nl
  ++ "                " ++ quoted "degree" ++ ": " ++ quoted "String" ++ "," ++ nl
  ++ "                " ++ quoted "institution" ++ ": " ++ quoted "String" ++ "," ++ nl
  ++ "                " ++ quoted "year" ++ ": " ++ quoted "String" ++ nl
  ++ "            }" ++ nl
  ++ "        ]," ++ nl
  ++ "        " ++ quoted "experience" ++ ": [" ++ nl
  ++ "            { " ++ quoted "company" ++ ": " ++ quoted "String" ++ ", " ++ quoted "role" ++ ": " ++ quoted "String" ++ ", " ++ quoted "details" ++ ": [" ++ quoted "String" ++ ", " ++ quoted "String" ++ "] }" ++ nl
  ++ "        ]" ++ nl
  ++ "    }" ++ nl
  ++ "    ".

Definition fence_json : string := "```json".
Definition fence : string := "```".

(** [response.text.replace("```json", "").replace("```", "")] *)
Definition clean_text (text : string) : string :=
  replace fence "" (replace fence_json "" text).

(** [get_ai_resume(raw_text, style)].  [generate model p] is what
    [genai.GenerativeModel(model).generate_content(p).text] gives in this
    call: the text of the answer, or the exception raised on the way (an
    [Exception], which the [except] clause catches).  The [st.cache_data]
    decorator only memoizes the function and is left out. *)
Definition get_ai_resume (generate : string -> string -> result string)
  (raw_text style : string) : value :=
  let model := "models/gemini-2.5-flash" in
  let prompt := prompt raw_text style in
  match (text <- generate model prompt ;;
         let clean_text := clean_text text in
         json_loads clean_text) with
  | Ok data => data
  | Raise e => VDict [("error", VStr (exn_str e))]
  end.

(** One turn of the experience loop of [create_pdf]. *)
Definition experience_body (job : value) (pdf : FPDF) : result FPDF :=
  role <- get job "role" (VStr "") ;;
  role_at <- add role (VStr " at ") ;;
  company <- get job "company" (VStr "") ;;
  job_details <- add (VStr role_at) company ;;
  pdf <- cell pdf 0 5 job_details "NEXT" "LMARGIN" ;;
  details <- getitem_str job "details" ;;
  if truthy details then
    details <- getitem_str job "details" ;;
    first <- getitem_int details 0 ;;
    line <- add (VStr "- ") first ;;
    multi_cell pdf 0 5 line
  else Ok pdf.

(** One turn of the education loop of [create_pdf]. *)
Definition education_body (edu : value) (pdf : FPDF) : result FPDF :=
  degree <- get edu "degree" (VStr "N/A") ;;
  institution <- get edu "institution" (VStr "N/A") ;;
  year <- get edu "year" (VStr "N/A") ;;
  multi_cell pdf 0 5
    (py_str degree ++ " from " ++ py_str institution
       ++ " (" ++ py_str year ++ ")").

(** [create_pdf(data)], called when the clock shows [now]. *)
Definition create_pdf (now : Z) (data : value) : result bytes :=
  let pdf := FPDF_new in
  let pdf := add_page pdf in
  (* 1. Name, Title, and Contact *)
  let pdf := set_font pdf "Arial" "B" 18 in
  name <- get data "name" (VStr "Name Not Found") ;;
  pdf <- cell pdf 200 8 (py_str name) "NEXT" "LMARGIN" ;;
  let pdf := set_font pdf "Arial" "" 12 in
  title <- get data "title" (VStr "Title Not Found") ;;
  pdf <- cell pdf 200 6 (py_str title) "NEXT" "LMARGIN" ;;
  (* Contact Info *)
  let pdf := set_font pdf "Arial" "" 9 in
  contact_data <- get data "contact" (VDict []) ;;
  email <- get contact_data "email" (VStr "N/A") ;;
  phone <- get contact_data "phone" (VStr "N/A") ;;
  pdf <- cell pdf 0 5 ("Email: " ++ py_str email ++ " | Phone: " ++ py_str phone)
           "NEXT" "LMARGIN" ;;
  linkedin <- get contact_data "linkedin" VNone ;;
  pdf <- (if truthy linkedin then
            linkedin <- get contact_data "linkedin" VNone ;;
            cell pdf 0 5 ("LinkedIn: " ++ py_str linkedin) "NEXT" "LMARGIN"
          else Ok pdf) ;;
  let pdf := ln pdf 5 in
  (* 2. Summary *)
  let pdf := set_font pdf "Arial" "B" 10 in
  pdf <- cell pdf 200 5 "PROFESSIONAL SUMMARY" "NEXT" "LMARGIN" ;;
  let pdf := set_font pdf "Arial" "" 10 in
  summary <- get data "summary" (VStr "") ;;
  pdf <- multi_cell pdf 0 5 (py_str summary) ;;
  (* 3. Skills *)
  let pdf := ln pdf 5 in
  let pdf := set_font pdf "Arial" "B" 10 in
  pdf <- cell pdf 200 5 "TECHNICAL SKILLS" "NEXT" "LMARGIN" ;;
  let pdf := set_font pdf "Arial" "" 10 in
  skills_list <- get data "skills" (VList []) ;;
  skills <- join " | " skills_list ;;
  pdf <- multi_cell pdf 0 5 skills ;;
  (* 4. Experience *)
  let pdf := ln pdf 5 in
  let pdf := set_font pdf "Arial" "B" 10 in
  pdf <- cell pdf 200 5 "EXPERIENCE" "NEXT" "LMARGIN" ;;
  let pdf := set_font pdf "Arial" "" 10 in
  experience <- get data "experience" (VList []) ;;
  jobs <- iter experience ;;
  pdf <- for_each jobs experience_body pdf ;;
  (* 5. Education *)
  let pdf := ln pdf 5 in
  let pdf := set_font pdf "Arial" "B" 10 in
  pdf <- cell pdf 200 5 "EDUCATION" "NEXT" "LMARGIN" ;;
  let pdf := set_font pdf "Arial" "" 10 in
  education <- get data "education" (VList []) ;;
  edus <- iter education ;;
  pdf <- for_each edus education_body pdf ;;
  Ok (output pdf now).

(** ** The data contract

    The schema the prompt of [get_ai_resume] dictates, and section 3 of the
    specification: every field of the document, of the contact and of an
    education entry may be absent, and so may the company and the role of an
    experience entry; its details are a list of strings. *)

Module Contract.

Record ContactInfo : Type := {
  email : option string;
  phone : option string;
  linkedin : option string
}.

Record EducationEntry : Type := {
  degree : option string;
  institution : option string;
  year : option string
}.

Record ExperienceEntry : Type := {
  company : option string;
  role : option string;
  details : list string
}.

Record ResumeDocument : Type := {
  name : option string;
  title : option string;
  summary : option string;
  contact : option ContactInfo;
  skills : option (list string);
  education : option (list EducationEntry);
  experience : option (list ExperienceEntry)
}.

End Contract.

Import Contract.

(** Reading a value against the contract: [as_resume data] is the document
    that the dictionary [data] holds, when it holds one.  Keys outside the
    schema are ignored. *)

Definition as_str (v : value) : option string :=
  match v with
  | VStr s => Some s
  | _ => None
  end.

Definition optional {A : Type} (f : value -> option A) (o : option value)
  : option (option A) :=
  match o with
  | None => Some None
  | Some v => option_map Some (f v)
  end.

Fixpoint all {A : Type} (f : value -> option A) (items : list value)
  : option (list A) :=
  match items with
  | [] => Some []
  | x :: rest =>
      match f x, all f rest with
      | Some a, Some l => Some (a :: l)
      | _, _ => None
      end
  end.

Definition as_list {A : Type} (f : value -> option A) (v : value) : option (list A) :=
  match v with
  | VList items => all f items
  | _ => None
  end.

Definition as_contact (v : value) : option ContactInfo :=
  match v with
  | VDict kvs =>
      match optional as_str (dict_get kvs "email"),
            optional as_str (dict_get kvs "phone"),
            optional as_str (dict_get kvs "linkedin") with
      | Some e, Some p, Some l => Some {| email := e; phone := p; linkedin := l |}
      | _, _, _ => None
      end
  | _ => None
  end.

Definition as_education (v : value) : option EducationEntry :=
  match v with
  | VDict kvs =>
      match optional as_str (dict_get kvs "degree"),
            optional as_str (dict_get kvs "institution"),
            optional as_str (dict_get kvs "year") with
      | Some d, Some i, Some y => Some {| degree := d; institution := i; year := y |}
      | _, _, _ => None
      end
  | _ => None
  end.

Definition as_experience (v : value) : option ExperienceEntry :=
  match v with
  | VDict kvs =>
      match optional as_str (dict_get kvs "company"),
            optional as_str (dict_get kvs "role"),
            dict_get kvs "details" with
      | Some c, Some r, Some ds =>
          option_map (fun l => {| company := c; role := r; details := l |})
                     (as_list as_str ds)
      | _, _, _ => None
      end
  | _ => None
  end.

Definition as_resume (data : value) : option ResumeDocument :=
  match data with
  | VDict kvs =>
      match optional as_str (dict_get kvs "name"),
            optional as_str (dict_get kvs "title"),
            optional as_str (dict_get kvs "summary"),
            optional as_contact (dict_get kvs "contact") with
      | Some n, Some t, Some s, Some c =>
          match optional (as_list as_str) (dict_get kvs "skills"),
                optional (as_list as_education) (dict_get kvs "education"),
                optional (as_list as_experience) (dict_get kvs "experience") with
          | Some sk, Some ed, Some ex =>
              Some {| name := n; title := t; summary := s; contact := c;
                      skills := sk; education := ed; experience := ex |}
          | _, _, _ => None
          end
      | _, _, _, _ => None
      end
  | _ => None
  end.

(** An absent field and its fallback. *)
Definition or_else {A : Type} (fallback : A) (o : option A) : A :=
  match o with
  | Some a => a
  | None => fallback
  end.

Definition no_contact : ContactInfo :=
  {| email := None; phone := None; linkedin := None |}.

(** ** The layout of section 4.2, over the contract

    What the specification says the renderer lays out, written over a
    [ResumeDocument] as the calls that draw it; [create_pdf] is compared,
    in [create_pdf_draws] below, with these calls made on a fresh
    object. *)

Definition line (text : string) : call := Cell 0 5 text "NEXT" "LMARGIN".

Definition section_header (text : string) : list call :=
  [SetFont "Arial" "B" 10; Cell 200 5 text "NEXT" "LMARGIN"; SetFont "Arial" "" 10].

Definition title_block (r : ResumeDocument) : list call :=
  [AddPage;
   SetFont "Arial" "B" 18;
   Cell 200 8 (or_else "Name Not Found" (name r)) "NEXT" "LMARGIN";
   SetFont "Arial" "" 12;
   Cell 200 6 (or_else "Title Not Found" (title r)) "NEXT" "LMARGIN";
   SetFont "Arial" "" 9].

Definition contact_line (c : ContactInfo) : string :=
  "Email: " ++ or_else "N/A" (email c) ++ " | Phone: " ++ or_else "N/A" (phone c).

(** The LinkedIn line is there for a LinkedIn text that is present and not
    empty. *)
Definition linkedin_lines (c : ContactInfo) : list call :=
  match linkedin c with
  | Some (String a s) => [line ("LinkedIn: " ++ String a s)]
  | Some EmptyString => []
  | None => []
  end.

Definition job_lines (j : ExperienceEntry) : list call :=
  line (or_else "" (role j) ++ " at " ++ or_else "" (company j))
  :: match details j with
     | [] => []
     | first :: _ => [MultiCell 0 5 ("- " ++ first)]
     end.

Definition education_line (e : EducationEntry) : string :=
  or_else "N/A" (degree e) ++ " from " ++ or_else "N/A" (institution e)
    ++ " (" ++ or_else "N/A" (year e) ++ ")".

Definition header_block (r : ResumeDocument) : list call :=
  let c := or_else no_contact (contact r) in
  (title_block r ++ [line (contact_line c)] ++ linkedin_lines c ++ [Ln 5])%list.

Definition summary_block (r : ResumeDocument) : list call :=
  (section_header "PROFESSIONAL SUMMARY"
     ++ [MultiCell 0 5 (or_else "" (summary r))])%list.

Definition skills_block (r : ResumeDocument) : list call :=
  (Ln 5 :: section_header "TECHNICAL SKILLS"
     ++ [MultiCell 0 5 (String.concat " | " (or_else [] (skills r)))])%list.

Definition experience_block (r : ResumeDocument) : list call :=
  (Ln 5 :: section_header "EXPERIENCE"
     ++ flat_map job_lines (or_else [] (experience r)))%list.

Definition education_block (r : ResumeDocument) : list call :=
  (Ln 5 :: section_header "EDUCATION"
     ++ map (fun e => MultiCell 0 5 (education_line e)) (or_else [] (education r)))%list.

Definition layout (r : ResumeDocument) : list call :=
  (header_block r ++ summary_block r ++ skills_block r
     ++ experience_block r ++ education_block r)%list.

(** ** The engine on a layout *)

(** One call on the object. *)
Definition perform (c : call) (pdf : FPDF) : result FPDF :=
  match c with
  | AddPage => Ok (add_page pdf)
  | SetFont family style size => Ok (set_font pdf family style size)
  | Cell w h text new_y new_x => cell pdf w h text new_y new_x
  | MultiCell w h text => multi_cell pdf w h text
  | Ln h => Ok (ln pdf h)
  end.

(** The calls of a layout, made in order. *)
Fixpoint run (script : list call) (pdf : FPDF) : result FPDF :=
  match script with
  | [] => Ok pdf
  | c :: rest => pdf <- perform c pdf ;; run rest pdf
  end.

(** The bytes of a layout drawn on a fresh object when the clock shows
    [now]. *)
Definition draw (now : Z) (script : list call) : result bytes :=
  pdf <- run script FPDF_new ;;
  Ok (output pdf now).

Definition text_of (c : call) : string :=
  match c with
  | Cell _ _ text _ _ => text
  | MultiCell _ _ text => text
  | _ => ""
  end.

(** A document the engine takes: every text of its layout is in latin-1,
    and it has at most one education entry (a second one finds the cursor
    where the first left it, at the right margin). *)
Definition printable (r : ResumeDocument) : bool :=
  forallb (fun c => latin1 (text_of c)) (layout r)
  && Nat.leb (List.length (or_else [] (education r))) 1.

(** The two exceptions of the engine. *)
Definition engine_error (e : exn) : bool :=
  String.eqb (exn_class e) "FPDFException"
  || String.eqb (exn_class e) "FPDFUnicodeEncodingException".

(** An outcome of [create_pdf] with another creation date. *)
Definition restamp (now : Z) (outcome : result bytes) : result bytes :=
  match outcome with
  | Ok (Output pages _) => Ok (Output pages now)
  | Raise e => Raise e
  end.

Definition call_eqb (c1 c2 : call) : bool :=
  match c1, c2 with
  | AddPage, AddPage => true
  | SetFont f1 s1 z1, SetFont f2 s2 z2 => String.eqb f1 f2 && String.eqb s1 s2 && (z1 =? z2)%Z
  | Cell w1 h1 t1 y1 x1, Cell w2 h2 t2 y2 x2 =>
      (w1 =? w2)%Z && (h1 =? h2)%Z && String.eqb t1 t2 && String.eqb y1 y2
      && String.eqb x1 x2
  | MultiCell w1 h1 t1, MultiCell w2 h2 t2 => (w1 =? w2)%Z && (h1 =? h2)%Z && String.eqb t1 t2
  | Ln h1, Ln h2 => (h1 =? h2)%Z
  | _, _ => false
  end.

Fixpoint calls_eqb (l1 l2 : list call) : bool :=
  match l1, l2 with
  | [], [] => true
  | c1 :: r1, c2 :: r2 => call_eqb c1 c2 && calls_eqb r1 r2
  | _, _ => false
  end.

(** Whether two serialised documents are byte for byte the same. *)
Definition same_bytes (b1 b2 : bytes) : bool :=
  match b1, b2 with
  | Output pages1 date1, Output pages2 date2 =>
      calls_eqb pages1 pages2 && (date1 =? date2)%Z
  end.

(** ** Fence markup inside a text *)

(** Whether [pat] occurs somewhere in [s]. *)
Fixpoint occurs (pat s : string) : bool :=
  prefix pat s
  || match s with
     | EmptyString => false
     | String _ s' => occurs pat s'
     end.

(** ** Sample documents *)

(** The example of section 8 of the specification. *)
Definition jane_doe : value :=
  VDict [("name", VStr "Jane Doe");
         ("skills", VList [VStr "Go"; VStr "SQL"]);
         ("experience", VList []);
         ("education", VList [])].

Definition jane_doe_document : ResumeDocument :=
  {| name := Some "Jane Doe"; title := None; summary := None; contact := None;
     skills := Some ["Go"; "SQL"]; education := Some []; experience := Some [] |}.

(** Two jobs, the first with details [["A", "B"]], the second with none, and
    one education entry without its year. *)
Definition two_jobs : value :=
  VDict [("experience",
          VList [VDict [("company", VStr "PTCL"); ("role", VStr "Engineer");
                        ("details", VList [VStr "A"; VStr "B"])];
                 VDict [("role", VStr "Intern"); ("details", VList [])]]);
         ("education",
          VList [VDict [("degree", VStr "BSc"); ("institution", VStr "UET")]])].

Definition two_jobs_document : ResumeDocument :=
  {| name := None; title := None; summary := None; contact := None; skills := None;
     education :=
       Some [{| degree := Some "BSc"; institution := Some "UET"; year := None |}];
     experience :=
       Some [{| company := Some "PTCL"; role := Some "Engineer"; details := ["A"; "B"] |};
             {| company := None; role := Some "Intern"; details := [] |}] |}.

(** A contact whose LinkedIn text is present and empty, and one whose
    LinkedIn text is an address. *)
Definition empty_linkedin : value :=
  VDict [("contact", VDict [("email", VStr "jane@example.org"); ("linkedin", VStr "")])].

Definition empty_linkedin_document : ResumeDocument :=
  {| name := None; title := None; summary := None;
     contact := Some {| email := Some "jane@example.org"; phone := None;
                        linkedin := Some "" |};
     skills := None; education := None; experience := None |}.

Definition with_linkedin : value :=
  VDict [("contact", VDict [("linkedin", VStr "linkedin.com/in/jane")])].

Definition with_linkedin_document : ResumeDocument :=
  {| name := None; title := None; summary := None;
     contact := Some {| email := None; phone := None;
                        linkedin := Some "linkedin.com/in/jane" |};
     skills := None; education := None; experience := None |}.

(** Two education entries. *)
Definition two_educations : value :=
  VDict [("name", VStr "Jane Doe");
         ("education",
          VList [VDict [("degree", VStr "BSc"); ("institution", VStr "UET");
                        ("year", VStr "2018")];
                 VDict [("degree", VStr "MSc"); ("institution", VStr "NUST");
                        ("year", VStr "2020")]])].

Definition two_educations_document : ResumeDocument :=
  {| name := Some "Jane Doe"; title := None; summary := None; contact := None;
     skills := None;
     education :=
       Some [{| degree := Some "BSc"; institution := Some "UET"; year := Some "2018" |};
             {| degree := Some "MSc"; institution := Some "NUST"; year := Some "2020" |}];
     experience := None |}.

(** Documents with a character outside latin-1: in the name, in a skill, in
    a detail (an en dash) and in the LinkedIn text. *)
Definition lukasz : value := VDict [("name", VStr "Łukasz Nowak")].

Definition lukasz_document : ResumeDocument :=
  {| name := Some "Łukasz Nowak"; title := None; summary := None; contact := None;
     skills := None; education := None; experience := None |}.

Definition greek_skill : value :=
  VDict [("skills", VList [VStr "Go"; VStr "Ελληνικά"])].

Definition greek_skill_document : ResumeDocument :=
  {| name := None; title := None; summary := None; contact := None;
     skills := Some ["Go"; "Ελληνικά"]; education := None; experience := None |}.



Definition polish_linkedin : value :=
  VDict [("contact", VDict [("linkedin", VStr "linkedin.com/in/łukasz")])].

Definition polish_linkedin_document : ResumeDocument :=
  {| name := None; title := None; summary := None;
     contact := Some {| email := None; phone := None;
                        linkedin := Some "linkedin.com/in/łukasz" |};
     skills := None; education := None; experience := None |}.

(** An experience entry with a role and a company and no ['details'] key. *)
Definition job_without_details : value :=
  VDict [("experience",
          VList [VDict [("role", VStr "Engineer"); ("company", VStr "PTCL")]])].

(** A backend that answers [text] whatever it is asked, and one whose call
    raises [e]. *)
Definition answers (text : string) : string -> string -> result string :=
  fun _ _ => Ok text.

Definition fails (e : exn) : string -> string -> result string :=
  fun _ _ => Raise e.

(** ** Sample answers of the backend *)

(** A document of the contract between fences, as the backend sends it. *)
Definition jane_json : string :=
  nl ++ "{" ++ quoted "name" ++ ": " ++ quoted "Jane Doe" ++ ", "
     ++ quoted "skills" ++ ": [" ++ quoted "Go" ++ ", " ++ quoted "SQL" ++ "]}" ++ nl.

Definition jane_data : value :=
  VDict [("name", VStr "Jane Doe"); ("skills", VList [VStr "Go"; VStr "SQL"])].

(** A document of the contract whose summary speaks of a fence. *)
Definition fence_inside_json : string :=
  "{" ++ quoted "summary" ++ ": " ++ quoted "Use ``` fences" ++ "}".

Definition fence_inside_document : ResumeDocument :=
  {| name := None; title := None; summary := Some "Use ``` fences"; contact := None;
     skills := None; education := None; experience := None |}.

(** ** The page

    The rest of [app.py] is the script Streamlit runs on every interaction:
    it checks the key, draws the input column, handles the button and draws
    the preview.  The calls on [st] are kept in the order they are made;
    unlike the calls on a [FPDF] object they stay on the page when the
    script raises afterwards, so a run gives its calls and its outcome. *)

Module St.

Inductive st_call : Type :=
| genai_configure (api_key : string)
| with_column (i : Z)
| st_error (body : string)
| st_stop
| st_set_page_config (page_title layout : string)
| st_title (body : string)
| st_caption (body : string)
| st_columns (spec : Z)
| st_header (body : string)
| st_info (body : string)
| st_selectbox (label : string) (options : list string)
| st_text_area (label : string) (height : Z) (placeholder : string)
| st_button (label : string)
| st_spinner (text : string)
| st_success (body : string)
| st_warning (body : string)
| st_download_button (label : string) (data : bytes) (file_name mime : string)
| st_markdown (body : string)
| st_write (v : value)
| st_subheader (body : string).

(** A piece of the script: the calls it makes and how it ends. *)
Definition UI (A : Type) : Type := list st_call * result A.

Definition emit (c : st_call) : UI unit := ([c], Ok tt).

Definition lift {A : Type} (r : result A) : UI A := ([], r).

Definition ui_bind {A B : Type} (u : UI A) (k : A -> UI B) : UI B :=
  match u with
  | (calls, Ok a) => let (calls', r) := k a in ((calls ++ calls')%list, r)
  | (calls, Raise e) => (calls, Raise e)
  end.

End St.

Import St.

Notation "x <~ e ;; k" := (ui_bind e (fun x => k))
  (at level 61, e at next level, right associativity).
Notation "e ;;; k" := (ui_bind e (fun _ => k))
  (at level 61, right associativity).

(** A [for] loop on the page. *)
Fixpoint ui_for_each (items : list value) (body : value -> UI unit) : UI unit :=
  match items with
  | [] => lift (Ok tt)
  | x :: rest => body x ;;; ui_for_each rest body
  end.

(** ["error" in v], for a [str] on the left: a key of a dict, an item of a
    list, a part of a [str]; nothing else has members. *)
Definition contains (v : value) (needle : string) : result bool :=
  match v with
  | VDict kvs =>
      Ok (match dict_get kvs needle with Some _ => true | None => false end)
  | VList items =>
      Ok (existsb (fun x => match x with
                            | VStr s => String.eqb s needle
                            | _ => false
                            end) items)
  | VStr s => Ok (occurs needle s)
  | _ => Raise (TypeError ("argument of type '" ++ type_name v ++ "' is not iterable"))
  end.

(** One turn of the experience loop of the preview. *)
Definition preview_experience_body (job : value) : UI unit :=
  role <~ lift (getitem_str job "role") ;;
  company <~ lift (getitem_str job "company") ;;
  emit (st_markdown ("**" ++ py_str role ++ "** | *" ++ py_str company ++ "*")) ;;;
  details <~ lift (getitem_str job "details") ;;
  tasks <~ lift (iter details) ;;
  ui_for_each tasks (fun task => emit (st_markdown ("- " ++ py_str task))) ;;;
  emit (st_write (VStr "")).

(** One turn of the education loop of the preview. *)
Definition preview_education_body (edu : value) : UI unit :=
  degree <~ lift (get edu "degree" (VStr "N/A")) ;;
  institution <~ lift (get edu "institution" (VStr "N/A")) ;;
  year <~ lift (get edu "year" (VStr "N/A")) ;;
  emit (st_markdown ("**" ++ py_str degree ++ "** from *" ++ py_str institution
                       ++ "* (" ++ py_str year ++ ")")).

(** The [else] branch of the preview: download button and sections. *)
Definition preview_document (now : Z) (data : value) : UI unit :=
  (* --- DOWNLOAD BUTTON LOGIC --- *)
  pdf_bytes <~ lift (create_pdf now data) ;;
  name <~ lift (get data "name" (VStr "Output")) ;;
  emit (st_download_button "Download as PDF 💾" pdf_bytes
          ("ResumeAI_" ++ py_str name ++ ".pdf") "application/pdf") ;;;
  (* 1. Name and Title *)
  name <~ lift (get data "name" (VStr "Name")) ;;
  emit (st_markdown ("# " ++ py_str name)) ;;;
  title <~ lift (get data "title" (VStr "Title")) ;;
  emit (st_markdown ("### " ++ py_str title)) ;;;
  emit (st_write (VStr "---")) ;;;
  (* 2. Contact Information *)
  emit (st_subheader "Contact Information") ;;;
  contact_data <~ lift (get data "contact" (VDict [])) ;;
  (if truthy contact_data then
     email <~ lift (get contact_data "email" (VStr "N/A")) ;;
     phone <~ lift (get contact_data "phone" (VStr "N/A")) ;;
     emit (st_write (VStr ("📧 **Email:** " ++ py_str email
                             ++ " | 📞 **Phone:** " ++ py_str phone))) ;;;
     linkedin <~ lift (get contact_data "linkedin" VNone) ;;
     if truthy linkedin then
       linkedin <~ lift (get contact_data "linkedin" VNone) ;;
       emit (st_write (VStr ("🔗 **LinkedIn:** " ++ py_str linkedin)))
     else lift (Ok tt)
   else lift (Ok tt)) ;;;
  emit (st_write (VStr "---")) ;;;
  (* 3. Summary *)
  emit (st_subheader "Summary") ;;;
  summary <~ lift (get data "summary" (VStr "")) ;;
  emit (st_write summary) ;;;
  emit (st_write (VStr "---")) ;;;
  (* 4. Technical Skills *)
  emit (st_subheader "Technical Skills") ;;;
  skills_list <~ lift (get data "skills" (VList [])) ;;
  skills <~ lift (join " • " skills_list) ;;
  emit (st_write (VStr skills)) ;;;
  emit (st_write (VStr "---")) ;;;
  (* 5. Experience *)
  emit (st_subheader "Experience") ;;;
  experience <~ lift (get data "experience" (VList [])) ;;
  jobs <~ lift (iter experience) ;;
  ui_for_each jobs preview_experience_body ;;;
  (* 6. Education *)
  emit (st_subheader "Education") ;;;
  education <~ lift (get data "education" (VList [])) ;;
  edus <~ lift (iter education) ;;
  ui_for_each edus preview_education_body.

(** [with col2:], where [session] is [st.session_state.get('cv_data')] and
    [now] is what the clock shows in this run. *)
Definition preview (now : Z) (session : option value) : UI unit :=
  emit (st_header "2. Preview") ;;;
  match session with
  | Some data =>
      has_error <~ lift (contains data "error") ;;
      if has_error then
        message <~ lift (getitem_str data "error") ;;
        text <~ lift (add (VStr "AI Error: ") message) ;;
        emit (st_error text)
      else preview_document now data
  | None => emit (st_info "Your generated CV will appear here.")
  end.

(** [with col1:].  [resume_style], [user_input] and [clicked] are what the
    select box, the text area and the button return in this run; the result
    is the session state after the column and the calls made.  The [except]
    clause around [get_ai_resume] has nothing to catch from it and is left
    out; [st.cache_data] keeps the results of [get_ai_resume] by its
    arguments, which changes nothing for a backend that is a function. *)
Definition input_column (generate : string -> string -> result string)
  (resume_style user_input : string) (clicked : bool) (session : option value)
  : option value * list st_call :=
  let drawn :=
    [st_header "1. Input";
     st_info "👇 **Paste your rough details here**";
     st_selectbox "Choose Resume Style:"
       ["Corporate"; "Creative/Modern"; "Technical/Engineering"];
     st_text_area "Your messy notes:" 300
       "Example: My name is Misbah, I work at PTCL as Electronics Engineer. I deal with fiber optics and server maintenance...";
     st_button "✨ Transform My CV"] in
  if clicked then
    if truthy (VStr user_input) then
      let cv_data := get_ai_resume generate user_input resume_style in
      (Some cv_data,
       (drawn ++ [st_spinner "AI is engineering your resume..."; st_success "Done!"])%list)
    else (session, (drawn ++ [st_warning "Please write something first!"])%list)
  else (session, drawn).

(** One run of the script, when the clock shows [now].  [GOOGLE_API_KEY] is
    what [os.getenv] gives; [with_column 1] and [with_column 2] mark where
    [with col1:] and [with col2:] begin. *)
Definition app (now : Z) (GOOGLE_API_KEY : option string)
  (generate : string -> string -> result string)
  (resume_style user_input : string) (clicked : bool) (session : option value)
  : option value * UI unit :=
  if negb (truthy (match GOOGLE_API_KEY with Some k => VStr k | None => VNone end))
  then
    (session,
     ([st_error "ERROR: API Key not found. Please ensure you have run 'pip install python-dotenv' and created a '.env' file with your key.";
       st_stop], Ok tt))
  else
    let (session', col1) :=
      input_column generate resume_style user_input clicked session in
    (session',
     ([genai_configure (or_else "" GOOGLE_API_KEY);
       st_set_page_config "ResumeAI" "wide";
       st_title "🚀 ResumeAI: Messy Notes to Professional CV";
       st_caption "Built by Misbah | Powered by Gemini";
       st_columns 2;
       with_column 1], Ok tt) ;;;
     (col1, Ok tt) ;;;
     emit (with_column 2) ;;;
     preview now session').

(** ** The model scanner

    The handler of the button of [scan.py].  [genai.list_models()] yields
    [models] and then, when [failure] is an exception, raises it. *)

Module Scan.

Record model : Type := {
  name : string;
  supported_generation_methods : list string
}.

(** ['generateContent' in m.supported_generation_methods] *)
Definition generates (m : model) : bool :=
  existsb (String.eqb "generateContent") (supported_generation_methods m).

(** The [for] loop: the calls made and [found] after it. *)
Fixpoint list_loop (models : list model) (found : bool) : list st_call * bool :=
  match models with
  | [] => ([], found)
  | m :: rest =>
      if generates m then
        let (calls, found') := list_loop rest true in
        (st_success ("✅ Found: " ++ name m) :: calls, found')
      else list_loop rest found
  end.

Definition scan_clicked (models : list model) (failure : option exn) : list st_call :=
  let (calls, found) := list_loop models false in
  (st_write (VStr "Ping Google Servers...") :: calls
     ++ match failure with
        | Some e => [st_error ("Error: " ++ exn_str e)]
        | None =>
            if negb found
            then [st_error "Connection successful, but no models listed. Check permissions."]
            else []
        end)%list.

End Scan.

(** ** The preview of section 2, over the contract *)

Definition is_dict (v : value) : bool :=
  match v with
  | VDict _ => true
  | _ => false
  end.

Definition is_download (c : st_call) : bool :=
  match c with
  | st_download_button _ _ _ _ => true
  | _ => false
  end.

(** An experience entry that has its role and its company. *)
Definition named (j : ExperienceEntry) : bool :=
  match role j, company j with
  | Some _, Some _ => true
  | _, _ => false
  end.

Definition preview_job (j : ExperienceEntry) : list st_call :=
  (st_markdown ("**" ++ or_else "" (role j) ++ "** | *" ++ or_else "" (company j) ++ "*")
     :: map (fun task => st_markdown ("- " ++ task)) (details j)
     ++ [st_write (VStr "")])%list.

Definition preview_education (e : EducationEntry) : st_call :=
  st_markdown ("**" ++ or_else "N/A" (degree e) ++ "** from *"
                 ++ or_else "N/A" (institution e)
                 ++ "* (" ++ or_else "N/A" (year e) ++ ")").

(** The contact lines are there when the contact dictionary has a key. *)
Definition preview_contact (has_keys : bool) (c : ContactInfo) : list st_call :=
  if has_keys then
    st_write (VStr ("📧 **Email:** " ++ or_else "N/A" (email c)
                      ++ " | 📞 **Phone:** " ++ or_else "N/A" (phone c)))
    :: match linkedin c with
       | Some (String a s) => [st_write (VStr ("🔗 **LinkedIn:** " ++ String a s))]
       | Some EmptyString => []
       | None => []
       end
  else [].

Definition download (now : Z) (r : ResumeDocument) : st_call :=
  st_download_button "Download as PDF 💾" (Output (layout r) now)
    ("ResumeAI_" ++ or_else "Output" (name r) ++ ".pdf") "application/pdf".

Definition preview_top (has_keys : bool) (r : ResumeDocument) : list st_call :=
  ([st_markdown ("# " ++ or_else "Name" (name r));
    st_markdown ("### " ++ or_else "Title" (title r));
    st_write (VStr "---");
    st_subheader "Contact Information"]
     ++ preview_contact has_keys (or_else no_contact (contact r))
     ++ [st_write (VStr "---");
         st_subheader "Summary";
         st_write (VStr (or_else "" (summary r)));
         st_write (VStr "---");
         st_subheader "Technical Skills";
         st_write (VStr (String.concat " • " (or_else [] (skills r))));
         st_write (VStr "---");
         st_subheader "Experience"])%list.

Definition preview_sections (has_keys : bool) (r : ResumeDocument) : list st_call :=
  (preview_top has_keys r
     ++ flat_map preview_job (or_else [] (experience r))
     ++ st_subheader "Education"
     :: map preview_education (or_else [] (education r)))%list.

(** ** More sample data *)

(** A document with every section filled, its one job with two details. *)
Definition full_resume : value :=
  VDict [("name", VStr "Jane Doe");
         ("contact", VDict [("email", VStr "jane@example.org")]);
         ("skills", VList [VStr "Go"; VStr "SQL"]);
         ("experience",
          VList [VDict [("company", VStr "PTCL"); ("role", VStr "Engineer");
                        ("details", VList [VStr "A"; VStr "B"])]]);
         ("education", VList [VDict [("degree", VStr "BSc")]])].

Definition full_resume_document : ResumeDocument :=
  {| name := Some "Jane Doe"; title := None; summary := None;
     contact := Some {| email := Some "jane@example.org"; phone := None;
                        linkedin := None |};
     skills := Some ["Go"; "SQL"];
     education := Some [{| degree := Some "BSc"; institution := None; year := None |}];
     experience :=
       Some [{| company := Some "PTCL"; role := Some "Engineer";
                details := ["A"; "B"] |}] |}.

(** The document that [jane_data] holds. *)
Definition jane_data_document : ResumeDocument :=
  {| name := Some "Jane Doe"; title := None; summary := None; contact := None;
     skills := Some ["Go"; "SQL"]; education := None; experience := None |}.

(** A full document that also carries an ["error"] key. *)
Definition flagged_resume : value :=
  VDict [("name", VStr "Jane Doe"); ("error", VStr "none");
         ("experience", VList []); ("education", VList [])].

Definition quota_error : exn := Exn "ResourceExhausted" "429 quota exceeded".

Definition some_models : list Scan.model :=
  [{| Scan.name := "models/gemini-2.5-flash";
      Scan.supported_generation_methods := ["generateContent"; "countTokens"] |};
   {| Scan.name := "models/embedding-001";
      Scan.supported_generation_methods := ["embedContent"] |};
   {| Scan.name := "models/gemini-2.5-pro";
      Scan.supported_generation_methods := ["generateContent"] |}].

(** ** Tactics *)

(** In a hypothesis [H] that reads a dictionary against the contract, the
    next optional field: either it is there with the right type, or [H]
    is absurd. *)
Ltac read_field H :=
  match type of H with
  | context [optional ?f (dict_get ?kvs ?k)] =>
      let o := fresh "o" in
      let E := fresh "E" in
      destruct (optional f (dict_get kvs k)) as [o|] eqn:E; [|discriminate H]
  end.

(** * Properties *)

Lemma str_app_assoc (a b c : string) : (a ++ b) ++ c = a ++ b ++ c.
Proof.
  induction a as [|x a IH]; simpl; [reflexivity | now rewrite IH].
Qed.

(** ** Reading the contract back from a dictionary *)

Lemma get_optional_str (kvs : list (string * value)) (k fallback : string)
  (o : option string) :
  optional as_str (dict_get kvs k) = Some o ->
  get (VDict kvs) k (VStr fallback) = Ok (VStr (or_else fallback o)).
Proof.
  unfold get, optional.
  destruct (dict_get kvs k) as [v|]; simpl.
  - destruct v; simpl; intros H; inversion H; reflexivity.
  - intros H; inversion H; reflexivity.
Qed.

Lemma all_cons_inv {A : Type} (f : value -> option A) (x : value)
  (rest : list value) (l : list A) :
  all f (x :: rest) = Some l ->
  exists a l', f x = Some a /\ all f rest = Some l' /\ l = a :: l'.
Proof.
  simpl. destruct (f x) as [a|]; [|discriminate].
  destruct (all f rest) as [l'|]; [|discriminate].
  intros H; inversion H; eauto.
Qed.

Lemma join_items_strings (items : list value) :
  forall (ss : list string) (i : nat),
    all as_str items = Some ss -> join_items i items = Ok ss.
Proof.
  induction items as [|x rest IH]; intros ss i H.
  - inversion H; reflexivity.
  - apply all_cons_inv in H. destruct H as (a & l' & Hx & Hrest & ->).
    destruct x; try discriminate. inversion Hx; subst.
    simpl. rewrite (IH l' (S i) Hrest). reflexivity.
Qed.

Lemma as_list_inv {A : Type} (f : value -> option A) (v : value) (l : list A) :
  as_list f v = Some l -> exists items, v = VList items /\ all f items = Some l.
Proof.
  destruct v; simpl; try discriminate. eauto.
Qed.

Lemma get_optional_list {A : Type} (f : value -> option A)
  (kvs : list (string * value)) (k : string) (o : option (list A)) :
  optional (as_list f) (dict_get kvs k) = Some o ->
  exists items,
    get (VDict kvs) k (VList []) = Ok (VList items)
    /\ all f items = Some (or_else [] o).
Proof.
  unfold get, optional.
  destruct (dict_get kvs k) as [v|]; simpl.
  - destruct (as_list f v) as [l|] eqn:Hl; simpl; [|discriminate].
    intros H; inversion H; subst; simpl.
    apply as_list_inv in Hl. destruct Hl as (items & -> & Hall). eauto.
  - intros H; inversion H; subst. exists []. split; reflexivity.
Qed.

Lemma get_optional_contact (kvs : list (string * value)) (o : option ContactInfo) :
  optional as_contact (dict_get kvs "contact") = Some o ->
  exists contact_data,
    get (VDict kvs) "contact" (VDict []) = Ok contact_data
    /\ as_contact contact_data = Some (or_else no_contact o).
Proof.
  unfold get, optional.
  destruct (dict_get kvs "contact") as [v|]; simpl.
  - destruct (as_contact v) as [c|] eqn:Hv; simpl; [|discriminate].
    intros H; inversion H; subst. eauto.
  - intros H; inversion H; subst. exists (VDict []). split; reflexivity.
Qed.

Lemma contact_gets (contact_data : value) (c : ContactInfo) :
  as_contact contact_data = Some c ->
  get contact_data "email" (VStr "N/A") = Ok (VStr (or_else "N/A" (email c)))
  /\ get contact_data "phone" (VStr "N/A") = Ok (VStr (or_else "N/A" (phone c)))
  /\ get contact_data "linkedin" VNone
     = Ok (match linkedin c with Some s => VStr s | None => VNone end).
Proof.
  intros H. destruct contact_data as [| | | | | |kvs]; try discriminate H.
  unfold as_contact in H. repeat read_field H.
  inversion H; subst; clear H. cbn [email phone linkedin].
  repeat split; try (apply get_optional_str; assumption).
  unfold get. unfold optional in *.
  destruct (dict_get kvs "linkedin") as [v|]; simpl in *.
  - destruct v; simpl in *; try discriminate.
    match goal with E : Some (Some _) = Some _ |- _ => inversion E; reflexivity end.
  - match goal with E : Some None = Some _ |- _ => inversion E; reflexivity end.
Qed.

(** ** The engine *)

Lemma bind_ok_r {A : Type} (r : result A) : bind r (fun a => Ok a) = r.
Proof.
  destruct r; reflexivity.
Qed.

Lemma cell_latin1 (pdf : FPDF) (w h : Z) (text new_y new_x : string) :
  latin1 text = true ->
  cell pdf w h text new_y new_x
  = Ok {| log := log pdf ++ [Cell w h text new_y new_x];
          x := x_after new_x (x pdf) (width pdf w);
          font_family := font_family pdf; font_style := font_style pdf |}.
Proof.
  unfold latin1, cell, normalize_text.
  destruct (first_outside 0 (chars text)) as [[i c]|]; [discriminate | reflexivity].
Qed.

(** A [multi_cell] up to the right margin, from the left margin. *)
Lemma multi_cell_latin1 (pdf : FPDF) (h : Z) (text : string) :
  latin1 text = true -> x pdf = l_margin ->
  multi_cell pdf 0 h text
  = Ok {| log := log pdf ++ [MultiCell 0 h text];
          x := (page_w - r_margin)%Z;
          font_family := font_family pdf; font_style := font_style pdf |}.
Proof.
  unfold latin1, multi_cell, normalize_text, width. intros H Hx. rewrite Hx.
  destruct (first_outside 0 (chars text)) as [[i c]|]; [discriminate | reflexivity].
Qed.

(** Where a [multi_cell] up to the right margin leaves the cursor, wherever
    it began. *)
Lemma multi_cell_ends_right (pdf pdf' : FPDF) (h : Z) (text : string) :
  multi_cell pdf 0 h text = Ok pdf' -> x pdf' = (page_w - r_margin)%Z.
Proof.
  unfold multi_cell.
  destruct (normalize_text pdf text); cbn [bind]; [|discriminate].
  destruct (_ && _); [discriminate|].
  intros H.
  assert (E : x pdf' = (x pdf + width pdf 0)%Z) by (injection H as <-; reflexivity).
  rewrite E. unfold width. change (0 =? 0)%Z with true. cbv iota. lia.
Qed.

(** No text but a blank one is taken by a [multi_cell] at the right
    margin. *)
Lemma multi_cell_no_room (pdf : FPDF) (h : Z) (text : string) :
  x pdf = (page_w - r_margin)%Z -> blank text = false ->
  exists e, multi_cell pdf 0 h text = Raise e.
Proof.
  unfold multi_cell, width. intros Hx Hb. rewrite Hx, Hb.
  destruct (normalize_text pdf text); cbn; eauto.
Qed.

Lemma blank_app (a b : string) : blank (a ++ b) = blank a && blank b.
Proof.
  induction a as [|c a IH]; [reflexivity|].
  cbn [append blank]. rewrite IH, andb_assoc. reflexivity.
Qed.

Lemma run_app (l1 l2 : list call) :
  forall pdf, run (l1 ++ l2) pdf = (pdf' <- run l1 pdf ;; run l2 pdf').
Proof.
  induction l1 as [|c l1 IH]; intros pdf; [reflexivity|].
  cbn [List.app run]. destruct (perform c pdf); cbn [bind]; [apply IH | reflexivity].
Qed.

(** The calls that returned are the calls of the script. *)
Lemma perform_log (c : call) (pdf pdf' : FPDF) :
  perform c pdf = Ok pdf' -> log pdf' = (log pdf ++ [c])%list.
Proof.
  destruct c; cbn [perform]; unfold cell, multi_cell.
  - intros H; inversion H; reflexivity.
  - intros H; inversion H; reflexivity.
  - destruct (normalize_text pdf text); cbn [bind]; [|discriminate].
    intros H; inversion H; reflexivity.
  - destruct (normalize_text pdf text); cbn [bind]; [|discriminate].
    destruct (_ && _); [discriminate|].
    intros H; inversion H; reflexivity.
  - intros H; inversion H; reflexivity.
Qed.

Lemma run_log (script : list call) :
  forall pdf pdf', run script pdf = Ok pdf' -> log pdf' = (log pdf ++ script)%list.
Proof.
  induction script as [|c rest IH]; intros pdf pdf' H.
  - inversion H; subst. rewrite app_nil_r. reflexivity.
  - cbn [run] in H. destruct (perform c pdf) as [pdf1|e] eqn:E; [|discriminate H].
    cbn [bind] in H. rewrite (IH _ _ H), (perform_log _ _ _ E), <- app_assoc.
    reflexivity.
Qed.

(** The engine raises nothing but its own two exceptions. *)
Lemma perform_raises (c : call) (pdf : FPDF) (e : exn) :
  perform c pdf = Raise e -> engine_error e = true.
Proof.
  destruct c; cbn [perform]; unfold cell, multi_cell, normalize_text; try discriminate.
  - destruct (first_outside 0 (chars text)) as [[i ch]|]; cbn [bind];
      intros H; inversion H; reflexivity.
  - destruct (first_outside 0 (chars text)) as [[i ch]|]; cbn [bind].
    + intros H; inversion H; reflexivity.
    + destruct (_ && _); intros H; inversion H; reflexivity.
Qed.

Lemma run_raises (script : list call) :
  forall pdf e, run script pdf = Raise e -> engine_error e = true.
Proof.
  induction script as [|c rest IH]; intros pdf e H; [discriminate H|].
  cbn [run] in H. destruct (perform c pdf) as [pdf1|e1] eqn:E; cbn [bind] in H.
  - exact (IH _ _ H).
  - inversion H; subst. exact (perform_raises _ _ _ E).
Qed.

(** ** The loops of [create_pdf] *)

Lemma experience_body_run (job : value) (j : ExperienceEntry) (pdf : FPDF) :
  as_experience job = Some j ->
  experience_body job pdf = run (job_lines j) pdf.
Proof.
  intros H. destruct job as [| | | | | |kvs]; try discriminate H.
  unfold as_experience in H. repeat read_field H.
  destruct (dict_get kvs "details") as [ds|] eqn:Hd; [|discriminate H].
  destruct (as_list as_str ds) as [l|] eqn:Hl; [|discriminate H].
  inversion H; subst; clear H.
  apply as_list_inv in Hl. destruct Hl as (items & -> & Hall).
  unfold experience_body.
  repeat (erewrite get_optional_str by eassumption).
  unfold getitem_str. rewrite Hd. unfold job_lines, line; simpl.
  rewrite str_app_assoc; simpl.
  destruct (cell pdf 0 5 _ "NEXT" "LMARGIN") as [pdf1|e]; cbn [bind]; [|reflexivity].
  destruct items as [|x0 rest].
  - inversion Hall; subst. reflexivity.
  - apply all_cons_inv in Hall. destruct Hall as (a & l' & Hx & _ & ->).
    destruct x0; try discriminate. inversion Hx; subst.
    simpl. rewrite bind_ok_r. reflexivity.
Qed.

Lemma education_body_run (edu : value) (e : EducationEntry) (pdf : FPDF) :
  as_education edu = Some e ->
  education_body edu pdf = run [MultiCell 0 5 (education_line e)] pdf.
Proof.
  intros H. destruct edu as [| | | | | |kvs]; try discriminate H.
  unfold as_education in H. repeat read_field H.
  inversion H; subst; clear H.
  unfold education_body.
  repeat (erewrite get_optional_str by eassumption).
  cbn [bind py_str run perform]. rewrite bind_ok_r. reflexivity.
Qed.

(** A loop whose every turn makes the calls of one entry makes the calls
    of all the entries, in order, and stops where they stop. *)
Lemma for_each_run {A : Type} (read : value -> option A) (lines : A -> list call)
  (body : value -> FPDF -> result FPDF) :
  (forall x0 a pdf, read x0 = Some a -> body x0 pdf = run (lines a) pdf) ->
  forall (items : list value) (entries : list A) (pdf : FPDF),
    all read items = Some entries ->
    for_each items body pdf = run (flat_map lines entries) pdf.
Proof.
  intros Hbody. induction items as [|x0 rest IH]; intros entries pdf H.
  - inversion H; subst. reflexivity.
  - apply all_cons_inv in H. destruct H as (a & entries' & Hx & Hrest & ->).
    cbn [for_each flat_map]. rewrite run_app, (Hbody x0 a pdf Hx).
    destruct (run (lines a) pdf); cbn [bind]; [apply IH, Hrest | reflexivity].
Qed.

Lemma flat_map_singleton {A B : Type} (f : A -> B) (l : list A) :
  flat_map (fun a => [f a]) l = map f l.
Proof.
  induction l as [|a l IH]; simpl; [reflexivity | now rewrite IH].
Qed.

(** ** [create_pdf] makes the calls of section 4.2 *)

(** On a document of the contract [create_pdf] ends as the engine does on
    the layout of the document: with its bytes, or with the exception of
    the first call that the engine refuses. *)
Lemma create_pdf_draws (now : Z) (data : value) (r : ResumeDocument) :
  as_resume data = Some r -> create_pdf now data = draw now (layout r).
Proof.
  intros H. destruct data as [| | | | | |kvs]; try discriminate H.
  unfold as_resume in H. repeat read_field H.
  inversion H; subst; clear H.
  repeat match goal with
         | E : optional (as_list _) _ = Some _ |- _ =>
             apply get_optional_list in E; destruct E as (? & ? & ?)
         | E : optional as_contact _ = Some _ |- _ =>
             apply get_optional_contact in E; destruct E as (? & ? & E);
             destruct (contact_gets _ _ E) as (? & ? & ?)
         end.
  unfold create_pdf.
  repeat (erewrite get_optional_str by eassumption).
  repeat match goal with
         | E : get _ _ _ = Ok _ |- _ => rewrite E; clear E
         end.
  unfold join, iter; cbn [iterate bind py_str].
  erewrite join_items_strings by eassumption.
  unfold draw, layout, header_block, summary_block, skills_block, experience_block,
    education_block, title_block, section_header, linkedin_lines, contact_line, line.
  cbn [name title summary contact skills education experience].
  match goal with
  | |- context [linkedin ?c] => destruct (linkedin c) as [[|a l]|]
  end;
    cbn [truthy String.eqb negb bind py_str List.app];
    repeat (cbn [run perform bind List.app py_str truthy String.eqb negb];
            match goal with
            | G : get ?v ?k ?d = Ok _ |- context [get ?v ?k ?d] => rewrite G
            | |- bind (for_each _ experience_body _) _ = _ =>
                erewrite (for_each_run as_experience job_lines)
                  by (try eassumption; apply experience_body_run)
            | |- bind (for_each _ education_body _) _ = _ =>
                erewrite (for_each_run as_education
                            (fun e => [MultiCell 0 5 (education_line e)]))
                  by (try eassumption; apply education_body_run);
                rewrite flat_map_singleton
            | |- bind ?o _ = bind ?o _ =>
                destruct o as [?pdf|?e]; cbn [bind]; [|reflexivity]
            | |- _ = bind (run (_ ++ _) _) _ => rewrite run_app
            | |- bind ?o _ = bind (bind ?o _) _ =>
                destruct o as [?pdf|?e]; cbn [bind]; [|reflexivity]
            end);
    reflexivity.
Qed.

(** ** What the engine takes *)

Lemma cell_lmargin (pdf : FPDF) (w h : Z) (text new_y : string) :
  latin1 text = true ->
  exists pdf', cell pdf w h text new_y "LMARGIN" = Ok pdf' /\ x pdf' = l_margin.
Proof.
  intros H. rewrite (cell_latin1 _ _ _ _ _ _ H). eexists. split; reflexivity.
Qed.

Lemma multi_cell_from_margin (pdf : FPDF) (h : Z) (text : string) :
  latin1 text = true -> x pdf = l_margin ->
  exists pdf', multi_cell pdf 0 h text = Ok pdf'.
Proof.
  intros H Hx. rewrite (multi_cell_latin1 _ _ _ H Hx). eexists. reflexivity.
Qed.

(** One call of a script whose texts are known to be in latin-1. *)
Ltac engine_step :=
  cbn [run perform bind];
  match goal with
  | |- exists _, bind (cell ?pdf ?w ?h ?t ?ny "LMARGIN") _ = _ =>
      let p := fresh "pdf" in
      let Hx := fresh "Hx" in
      destruct (cell_lmargin pdf w h t ny) as (p & -> & Hx);
      [assumption || reflexivity|]
  | |- exists _, bind (multi_cell ?pdf 0 ?h ?t) _ = _ =>
      let p := fresh "pdf" in
      destruct (multi_cell_from_margin pdf h t) as (p & ->);
      [ assumption || reflexivity
      | first [reflexivity | unfold set_font; cbn [x]; assumption]
      | ]
  end.

Lemma run_job_lines (j : ExperienceEntry) (pdf : FPDF) :
  forallb (fun c => latin1 (text_of c)) (job_lines j) = true ->
  exists pdf', run (job_lines j) pdf = Ok pdf'.
Proof.
  unfold job_lines, line. destruct (details j) as [|first rest];
    cbn [forallb text_of]; rewrite ?andb_true_iff; intros H.
  - destruct H as (H1 & _). engine_step. cbn [run bind]. eexists; reflexivity.
  - destruct H as (H1 & H2 & _). engine_step.
    cbn [run perform bind].
    destruct (multi_cell_from_margin pdf0 5 ("- " ++ first) H2 Hx) as (pdf1 & ->).
    cbn [run bind]. eexists; reflexivity.
Qed.

Lemma run_jobs (jobs : list ExperienceEntry) :
  forall pdf,
    forallb (fun c => latin1 (text_of c)) (flat_map job_lines jobs) = true ->
    exists pdf', run (flat_map job_lines jobs) pdf = Ok pdf'.
Proof.
  induction jobs as [|j jobs IH]; intros pdf H.
  - eexists; reflexivity.
  - cbn [flat_map] in H |- *. rewrite forallb_app, andb_true_iff in H.
    destruct H as (Hj & Hjobs). rewrite run_app.
    destruct (run_job_lines j pdf Hj) as (pdf1 & ->). cbn [bind].
    apply IH, Hjobs.
Qed.

(** The header block is drawn from any state of the object, and so are a
    section header with one block under it, and the experience and the
    education sections of a printable document. *)
Lemma run_header_block (r : ResumeDocument) (pdf : FPDF) :
  forallb (fun c => latin1 (text_of c)) (header_block r) = true ->
  exists pdf', run (header_block r) pdf = Ok pdf'.
Proof.
  unfold header_block, title_block, linkedin_lines, line.
  destruct (linkedin (or_else no_contact (contact r))) as [[|a l]|];
    cbn [List.app forallb text_of]; rewrite ?andb_true_iff; intros H;
    repeat match goal with
           | G : _ /\ _ |- _ => destruct G
           end;
    repeat engine_step; cbn [run perform bind]; eexists; reflexivity.
Qed.

Lemma run_section (gap : list call) (title text : string) (pdf : FPDF) :
  gap = [] \/ gap = [Ln 5] ->
  latin1 title = true -> latin1 text = true ->
  exists pdf', run (gap ++ section_header title ++ [MultiCell 0 5 text]) pdf = Ok pdf'.
Proof.
  unfold section_header. intros [-> | ->] Ht Hx; cbn [List.app];
    repeat engine_step; cbn [run perform bind]; eexists; reflexivity.
Qed.

Lemma run_experience_block (r : ResumeDocument) (pdf : FPDF) :
  forallb (fun c => latin1 (text_of c)) (experience_block r) = true ->
  exists pdf', run (experience_block r) pdf = Ok pdf'.
Proof.
  unfold experience_block, section_header. cbn [List.app forallb text_of].
  rewrite ?andb_true_iff. intros H.
  repeat match goal with
         | G : _ /\ _ |- _ => destruct G
         end.
  repeat engine_step. cbn [run perform bind]. apply run_jobs. assumption.
Qed.

Lemma run_education_block (r : ResumeDocument) (pdf : FPDF) :
  forallb (fun c => latin1 (text_of c)) (education_block r) = true ->
  Nat.leb (List.length (or_else [] (education r))) 1 = true ->
  exists pdf', run (education_block r) pdf = Ok pdf'.
Proof.
  unfold education_block, section_header.
  destruct (or_else [] (education r)) as [|e1 [|e2 rest]];
    cbn [List.app map forallb text_of]; rewrite ?andb_true_iff; intros H Hn;
    [ | | discriminate Hn ];
    repeat match goal with
           | G : _ /\ _ |- _ => destruct G
           end;
    repeat engine_step; cbn [run perform bind]; eexists; reflexivity.
Qed.

(** The layout of a printable document is drawn to its end. *)
Lemma run_layout_printable (r : ResumeDocument) :
  printable r = true -> exists pdf, run (layout r) FPDF_new = Ok pdf.
Proof.
  unfold printable, layout. rewrite andb_true_iff, !forallb_app, !andb_true_iff.
  intros ((Hh & Hs & Hk & Hx & He) & Hn).
  rewrite run_app.
  destruct (run_header_block r FPDF_new Hh) as (pdf1 & ->). cbn [bind].
  assert (Hsummary : exists pdf', run (summary_block r) pdf1 = Ok pdf').
  { unfold summary_block in *. rewrite forallb_app in Hs. cbn [forallb text_of] in Hs.
    rewrite !andb_true_iff in Hs. destruct Hs as (_ & Htext & _).
    apply (run_section [] _ _ pdf1); [left; reflexivity | reflexivity | exact Htext]. }
  rewrite run_app. destruct Hsummary as (pdf2 & ->). cbn [bind].
  assert (Hskills : exists pdf', run (skills_block r) pdf2 = Ok pdf').
  { unfold skills_block in *. cbn [forallb text_of] in Hk.
    rewrite forallb_app in Hk. cbn [forallb text_of] in Hk.
    rewrite !andb_true_iff in Hk. destruct Hk as (_ & _ & Htext & _).
    apply (run_section [Ln 5] _ _ pdf2); [right; reflexivity | reflexivity | exact Htext]. }
  rewrite run_app. destruct Hskills as (pdf3 & ->). cbn [bind].
  rewrite run_app. destruct (run_experience_block r pdf3 Hx) as (pdf4 & ->). cbn [bind].
  apply run_education_block; assumption.
Qed.

Lemma education_line_not_blank (e : EducationEntry) : blank (education_line e) = false.
Proof.
  unfold education_line. rewrite blank_app. apply andb_false_intro2. reflexivity.
Qed.

(** A second education entry is refused, whatever the entries are. *)
Lemma run_two_educations (e1 e2 : EducationEntry) (rest : list EducationEntry)
  (pdf : FPDF) :
  exists e,
    run (map (fun e => MultiCell 0 5 (education_line e)) (e1 :: e2 :: rest)) pdf
    = Raise e.
Proof.
  cbn [map run perform].
  destruct (multi_cell pdf 0 5 (education_line e1)) as [pdf1|e] eqn:E1; cbn [bind];
    [|eauto].
  destruct (multi_cell_no_room pdf1 5 (education_line e2)
              (multi_cell_ends_right _ _ _ _ E1) (education_line_not_blank e2))
    as (e & ->).
  cbn [bind]. eauto.
Qed.

Lemma run_raises_after (l1 l2 : list call) :
  (forall pdf, exists e, run l2 pdf = Raise e) ->
  forall pdf, exists e, run (l1 ++ l2) pdf = Raise e.
Proof.
  intros H pdf. rewrite run_app.
  destruct (run l1 pdf) as [pdf1|e]; cbn [bind]; [apply H | eauto].
Qed.

Lemma run_layout_second_education (r : ResumeDocument) :
  (2 <= List.length (or_else [] (education r)))%nat ->
  forall pdf, exists e, run (layout r) pdf = Raise e.
Proof.
  intros H. unfold layout, education_block.
  do 4 apply run_raises_after.
  rewrite app_comm_cons. apply run_raises_after.
  destruct (or_else [] (education r)) as [|e1 [|e2 rest]];
    [cbn in H; lia | cbn in H; lia |].
  intros pdf. apply run_two_educations.
Qed.

(** A text outside latin-1 is refused, wherever it stands. *)
Lemma run_outside_latin1 (script : list call) :
  forallb (fun c => latin1 (text_of c)) script = false ->
  forall pdf, exists e, run script pdf = Raise e.
Proof.
  induction script as [|c rest IH]; intros H pdf; [discriminate H|].
  cbn [forallb] in H. cbn [run].
  destruct (perform c pdf) as [pdf1|e] eqn:E; cbn [bind]; [|eauto].
  apply IH. destruct (latin1 (text_of c)) eqn:L; [exact H|].
  destruct c; cbn [text_of perform] in *; try discriminate L;
    unfold cell, multi_cell, normalize_text, latin1 in *;
    destruct (first_outside 0 (chars text)) as [[i ch]|]; discriminate.
Qed.

(** ** [create_pdf] on the documents of the contract *)

(** [create_pdf] returns on the printable documents. *)
Lemma create_pdf_layout (now : Z) (data : value) (r : ResumeDocument) :
  as_resume data = Some r -> printable r = true ->
  create_pdf now data = Ok (Output (layout r) now).
Proof.
  intros H Hp. rewrite (create_pdf_draws now data r H). unfold draw.
  destruct (run_layout_printable r Hp) as (pdf & E). rewrite E. cbn [bind].
  unfold output. rewrite (run_log _ _ _ E). reflexivity.
Qed.

(** The outcome depends on the document alone: two dictionaries that hold
    the same document, whatever the order of their keys and whatever other
    keys they carry, are drawn alike. *)
Lemma create_pdf_same_document (now : Z) (data1 data2 : value) (r : ResumeDocument) :
  as_resume data1 = Some r -> as_resume data2 = Some r ->
  create_pdf now data1 = create_pdf now data2.
Proof.
  intros H1 H2.
  rewrite (create_pdf_draws now data1 r H1), (create_pdf_draws now data2 r H2).
  reflexivity.
Qed.

(** C1 (the code departs from the claim).  An experience entry that has a
    role and a company and no ['details'] key makes [create_pdf] raise
    [KeyError: 'details'] at [job['details']], where the claim asks for a
    rendering with the fallback; the role and the company of the same entry
    are read with [get] and a fallback. *)
Theorem create_pdf_raises_without_details (now : Z) :
  create_pdf now job_without_details = Raise (Exn "KeyError" "'details'").
Proof.
  reflexivity.
Qed.

(** ** Two calls of the renderer *)

(** C4, as the code has it.  Two calls of [create_pdf] on the same value
    make the same calls on the engine and end alike: both raise the same
    exception, or both return a document of the same pages.  The bytes are
    stamped with the time of the call, so the second outcome is the first
    one with another creation date; it is the same bytes when the clock
    shows the same second. *)
Theorem create_pdf_same_but_for_the_date (data : value) (now1 now2 : Z) :
  create_pdf now2 data = restamp now2 (create_pdf now1 data).
Proof.
  unfold create_pdf.
  repeat (cbv zeta;
          match goal with
          | |- bind ?o _ = restamp _ (bind ?o _) =>
              destruct o; cbn [bind restamp]; [|reflexivity]
          end).
  reflexivity.
Qed.

(** C4, as stated, fails: the example of section 8, rendered twice a second
    apart, gives two documents of the same pages that are not the same
    bytes. *)
Lemma create_pdf_a_second_later :
  as_resume jane_doe = Some jane_doe_document
  /\ create_pdf 0 jane_doe = Ok (Output (layout jane_doe_document) 0)
  /\ create_pdf 1 jane_doe = Ok (Output (layout jane_doe_document) 1)
  /\ same_bytes (Output (layout jane_doe_document) 0)
                (Output (layout jane_doe_document) 1) = false.
Proof.
  repeat split.
Qed.

(** C9 (the code departs from the claim).  The education loop calls
    [multi_cell] without [new_x], unlike the [cell] calls of the renderer:
    the first entry leaves the cursor at the right margin, the second finds
    no room there, and [create_pdf] raises.  A document of the contract
    with two education entries or more gets no education section and no
    bytes. *)
Theorem create_pdf_refuses_second_education (now : Z) (data : value)
  (r : ResumeDocument) :
  as_resume data = Some r ->
  (2 <= List.length (or_else [] (education r)))%nat ->
  exists e, create_pdf now data = Raise e /\ engine_error e = true.
Proof.
  intros H Hn. rewrite (create_pdf_draws now data r H). unfold draw.
  destruct (run_layout_second_education r Hn FPDF_new) as (e & E).
  exists e. rewrite E. split; [reflexivity | exact (run_raises _ _ _ E)].
Qed.

Lemma create_pdf_refuses_second_education_witness :
  exists e, create_pdf 0 two_educations = Raise e /\ engine_error e = true.
Proof.
  apply (create_pdf_refuses_second_education 0 two_educations two_educations_document).
  - reflexivity.
  - cbn. lia.
Defined.

(** The exception of the second education entry. *)
Example two_educations_no_room (now : Z) :
  create_pdf now two_educations
  = Raise (FPDFException "Not enough horizontal space to render a single character").
Proof.
  reflexivity.
Qed.

Section Renderer.

Variable now : Z.
Variable data : value.
Variable r : ResumeDocument.
Hypothesis data_holds_r : as_resume data = Some r.
Hypothesis r_printable : printable r = true.

(** On every printable document of the contract the renderer returns, and
    what it returns is not an empty layout. *)
Lemma create_pdf_succeeds :
  exists first rest, create_pdf now data = Ok (Output (first :: rest) now).
Proof.
  rewrite (create_pdf_layout now data r data_holds_r r_printable).
  exists AddPage. eexists. reflexivity.
Qed.

(** C10, as the code has it.  The header block of every printable document
    is the name, the title and then the line
    ["Email: <email> | Phone: <phone>"], with ["N/A"] for an absent email
    and for an absent phone; with no contact object at all both are absent
    and the line is still there. *)
Theorem contact_line_with_fallbacks :
  exists rest,
    create_pdf now data
    = Ok (Output
            ([AddPage;
              SetFont "Arial" "B" 18;
              Cell 200 8 (or_else "Name Not Found" (name r)) "NEXT" "LMARGIN";
              SetFont "Arial" "" 12;
              Cell 200 6 (or_else "Title Not Found" (title r)) "NEXT" "LMARGIN";
              SetFont "Arial" "" 9;
              Cell 0 5
                ("Email: " ++ or_else "N/A" (email (or_else no_contact (contact r)))
                   ++ " | Phone: "
                   ++ or_else "N/A" (phone (or_else no_contact (contact r))))
                "NEXT" "LMARGIN"] ++ rest)%list now).
Proof.
  rewrite (create_pdf_layout now data r data_holds_r r_printable).
  eexists. unfold layout, header_block, title_block, line, contact_line.
  rewrite <- !app_assoc. reflexivity.
Qed.

(** C6, as the code has it.  In the header block of a printable document
    the contact line is followed by one LinkedIn line when the LinkedIn
    text is present and not empty, and by no LinkedIn line when it is
    absent or empty; the vertical gap that ends the block comes next. *)
Theorem linkedin_line_when_nonempty :
  exists rest,
    create_pdf now data
    = Ok (Output
            (title_block r
               ++ [Cell 0 5 (contact_line (or_else no_contact (contact r)))
                     "NEXT" "LMARGIN"]
               ++ match linkedin (or_else no_contact (contact r)) with
                  | Some (String a s) =>
                      [Cell 0 5 ("LinkedIn: " ++ String a s) "NEXT" "LMARGIN"]
                  | Some EmptyString => []
                  | None => []
                  end
               ++ Ln 5 :: rest)%list now).
Proof.
  rewrite (create_pdf_layout now data r data_holds_r r_printable).
  eexists. unfold layout, header_block, linkedin_lines, line.
  rewrite <- !app_assoc. reflexivity.
Qed.

(** C8, as the code has it.  The skills section of every printable
    document is the gap, the header ["TECHNICAL SKILLS"] and one block
    holding all the skills, in order, joined with [" | "]; the gap of the
    next section follows.  With no skills the header is still there and the
    block is empty. *)
Theorem skills_section_joined :
  exists before rest,
    create_pdf now data
    = Ok (Output
            (before
               ++ [Ln 5;
                   SetFont "Arial" "B" 10;
                   Cell 200 5 "TECHNICAL SKILLS" "NEXT" "LMARGIN";
                   SetFont "Arial" "" 10;
                   MultiCell 0 5 (String.concat " | " (or_else [] (skills r)))]
               ++ Ln 5 :: rest)%list now).
Proof.
  rewrite (create_pdf_layout now data r data_holds_r r_printable).
  exists (header_block r ++ summary_block r)%list. eexists.
  unfold layout, skills_block, experience_block, section_header.
  rewrite <- !app_assoc. reflexivity.
Qed.


(** The education section of a printable document, which has one entry at
    most: its header and the line
    ["<degree> from <institution> (<year>)"] of the entry, with ["N/A"] for
    each of the three that is absent; it ends the layout. *)
Lemma education_section_when_printable :
  exists before,
    create_pdf now data
    = Ok (Output
            (before
               ++ [Ln 5;
                   SetFont "Arial" "B" 10;
                   Cell 200 5 "EDUCATION" "NEXT" "LMARGIN";
                   SetFont "Arial" "" 10]
               ++ map
                    (fun e =>
                       MultiCell 0 5
                         (or_else "N/A" (degree e) ++ " from "
                            ++ or_else "N/A" (institution e)
                            ++ " (" ++ or_else "N/A" (year e) ++ ")"))
                    (or_else [] (education r)))%list now).
Proof.
  rewrite (create_pdf_layout now data r data_holds_r r_printable).
  exists (header_block r ++ summary_block r ++ skills_block r ++ experience_block r)%list.
  unfold layout, education_block, section_header.
  rewrite <- !app_assoc. reflexivity.
Qed.

End Renderer.

(** *** The claims on the sample documents *)

(** The example of section 8: the skills block is ["Go | SQL"], and the
    experience and the education sections are headers with nothing under
    them. *)
Example jane_doe_layout (now : Z) :
  create_pdf now jane_doe
  = Ok (Output
          [AddPage;
           SetFont "Arial" "B" 18;
           Cell 200 8 "Jane Doe" "NEXT" "LMARGIN";
           SetFont "Arial" "" 12;
           Cell 200 6 "Title Not Found" "NEXT" "LMARGIN";
           SetFont "Arial" "" 9;
           Cell 0 5 "Email: N/A | Phone: N/A" "NEXT" "LMARGIN";
           Ln 5;
           SetFont "Arial" "B" 10;
           Cell 200 5 "PROFESSIONAL SUMMARY" "NEXT" "LMARGIN";
           SetFont "Arial" "" 10;
           MultiCell 0 5 "";
           Ln 5;
           SetFont "Arial" "B" 10;
           Cell 200 5 "TECHNICAL SKILLS" "NEXT" "LMARGIN";
           SetFont "Arial" "" 10;
           MultiCell 0 5 "Go | SQL";
           Ln 5;
           SetFont "Arial" "B" 10;
           Cell 200 5 "EXPERIENCE" "NEXT" "LMARGIN";
           SetFont "Arial" "" 10;
           Ln 5;
           SetFont "Arial" "B" 10;
           Cell 200 5 "EDUCATION" "NEXT" "LMARGIN";
           SetFont "Arial" "" 10] now).
Proof.
  reflexivity.
Qed.

Lemma contact_line_with_fallbacks_witness :
  exists rest,
    create_pdf 0 jane_doe
    = Ok (Output
            ([AddPage;
              SetFont "Arial" "B" 18;
              Cell 200 8 "Jane Doe" "NEXT" "LMARGIN";
              SetFont "Arial" "" 12;
              Cell 200 6 "Title Not Found" "NEXT" "LMARGIN";
              SetFont "Arial" "" 9;
              Cell 0 5 "Email: N/A | Phone: N/A" "NEXT" "LMARGIN"] ++ rest)%list 0).
Proof.
  exact (contact_line_with_fallbacks 0 jane_doe jane_doe_document eq_refl eq_refl).
Defined.

(** C10, as stated, fails: a name outside latin-1 is refused at the first
    cell, before the contact line is reached, and nothing is returned. *)
Lemma contact_line_not_drawn_for_lukasz :
  as_resume lukasz = Some lukasz_document
  /\ create_pdf 0 lukasz = Raise (FPDFUnicodeEncodingException 0 "Ł" "helveticaB").
Proof.
  repeat split.
Qed.

Lemma linkedin_line_when_nonempty_witness :
  exists rest,
    create_pdf 0 with_linkedin
    = Ok (Output
            (title_block with_linkedin_document
               ++ [Cell 0 5 "Email: N/A | Phone: N/A" "NEXT" "LMARGIN"]
               ++ [Cell 0 5 "LinkedIn: linkedin.com/in/jane" "NEXT" "LMARGIN"]
               ++ Ln 5 :: rest)%list 0).
Proof.
  exact (linkedin_line_when_nonempty 0 with_linkedin with_linkedin_document
           eq_refl eq_refl).
Defined.

(** C6, as stated, fails twice.  A LinkedIn text that is present as the
    empty string gets no LinkedIn line: the contact line is followed by the
    gap.  And a LinkedIn text with a character outside latin-1 is refused
    by the engine: no line is drawn and nothing is returned. *)
Lemma linkedin_empty_string_has_no_line :
  as_resume empty_linkedin = Some empty_linkedin_document
  /\ linkedin (or_else no_contact (contact empty_linkedin_document)) = Some ""
  /\ create_pdf 0 empty_linkedin
     = Ok (Output
             [AddPage;
              SetFont "Arial" "B" 18;
              Cell 200 8 "Name Not Found" "NEXT" "LMARGIN";
              SetFont "Arial" "" 12;
              Cell 200 6 "Title Not Found" "NEXT" "LMARGIN";
              SetFont "Arial" "" 9;
              Cell 0 5 "Email: jane@example.org | Phone: N/A" "NEXT" "LMARGIN";
              Ln 5;
              SetFont "Arial" "B" 10;
              Cell 200 5 "PROFESSIONAL SUMMARY" "NEXT" "LMARGIN";
              SetFont "Arial" "" 10;
              MultiCell 0 5 "";
              Ln 5;
              SetFont "Arial" "B" 10;
              Cell 200 5 "TECHNICAL SKILLS" "NEXT" "LMARGIN";
              SetFont "Arial" "" 10;
              MultiCell 0 5 "";
              Ln 5;
              SetFont "Arial" "B" 10;
              Cell 200 5 "EXPERIENCE" "NEXT" "LMARGIN";
              SetFont "Arial" "" 10;
              Ln 5;
              SetFont "Arial" "B" 10;
              Cell 200 5 "EDUCATION" "NEXT" "LMARGIN";
              SetFont "Arial" "" 10] 0)
  /\ as_resume polish_linkedin = Some polish_linkedin_document
  /\ create_pdf 0 polish_linkedin
     = Raise (FPDFUnicodeEncodingException 26 "ł" "helvetica").
Proof.
  repeat split.
Qed.

Lemma skills_section_joined_witness :
  exists before rest,
    create_pdf 0 jane_doe
    = Ok (Output
            (before
               ++ [Ln 5;
                   SetFont "Arial" "B" 10;
                   Cell 200 5 "TECHNICAL SKILLS" "NEXT" "LMARGIN";
                   SetFont "Arial" "" 10;
                   MultiCell 0 5 "Go | SQL"]
               ++ Ln 5 :: rest)%list 0).
Proof.
  exact (skills_section_joined 0 jane_doe jane_doe_document eq_refl eq_refl).
Defined.

(** C8, as stated, fails: a skill outside latin-1 is refused where the
    block of the skills is drawn, and nothing is returned. *)
Lemma skills_not_drawn_for_greek :
  as_resume greek_skill = Some greek_skill_document
  /\ create_pdf 0 greek_skill = Raise (FPDFUnicodeEncodingException 5 "Ε" "helvetica").
Proof.
  repeat split.
Qed.



(** ** The decoder never lacks fuel *)

Lemma within_weaken {A : Type} (n m : nat) (p : parsed A) :
  within n p -> n <= m -> within m p.
Proof.
  destruct p; simpl; intros; [lia | trivial | assumption].
Qed.

Lemma within_prepend {A : Type} (f : A -> A) (n : nat) (p : parsed A) :
  within n p -> within n (prepend f p).
Proof.
  destruct p; simpl; trivial.
Qed.

Lemma skip_ws_length (s : string) :
  forall pos, String.length (snd (skip_ws pos s)) <= String.length s.
Proof.
  induction s as [|c s IH]; intros pos; simpl.
  - lia.
  - destruct (is_ws c); simpl; [specialize (IH (S pos)); lia | lia].
Qed.

Lemma after_word_length (w : string) :
  forall s r, after_word w s = Some r ->
              String.length s = String.length w + String.length r.
Proof.
  induction w as [|a w IH]; intros s r H; simpl in H.
  - inversion H; reflexivity.
  - destruct s as [|b s]; [discriminate|].
    destruct (Ascii.eqb a b); [|discriminate].
    simpl. rewrite (IH s r H). reflexivity.
Qed.

Lemma take_digits_length (s : string) :
  String.length (snd (take_digits s)) <= String.length s.
Proof.
  induction s as [|c s IH]; simpl; [lia|].
  destruct (is_digit c); simpl; [|lia].
  destruct (take_digits s); simpl in *. lia.
Qed.

Lemma scan_integer_length (s int r : string) :
  scan_integer s = Some (int, r) -> String.length r < String.length s.
Proof.
  unfold scan_integer.
  assert (D : forall t, String.length (snd (take_digits t)) <= String.length t)
    by apply take_digits_length.
  destruct s as [|c s]; [discriminate|].
  destruct (Ascii.eqb c "-"%char).
  - destruct s as [|d s]; [discriminate|].
    destruct (Ascii.eqb d "0"%char); [intros H; inversion H; simpl; lia|].
    destruct (is_digit d); [|discriminate].
    specialize (D s). destruct (take_digits s); simpl in *.
    intros H; inversion H; subst; lia.
  - destruct (Ascii.eqb c "0"%char); [intros H; inversion H; simpl; lia|].
    destruct (is_digit c); [|discriminate].
    specialize (D s). destruct (take_digits s); simpl in *.
    intros H; inversion H; subst; lia.
Qed.

Lemma scan_fraction_length (s : string) :
  String.length (snd (scan_fraction s)) <= String.length s.
Proof.
  unfold scan_fraction. destruct s as [|p [|d s]]; simpl; try lia.
  destruct (Ascii.eqb p "."%char && is_digit d); simpl; [|lia].
  pose proof (take_digits_length s). destruct (take_digits s); simpl in *. lia.
Qed.

Lemma scan_exponent_length (s : string) :
  String.length (snd (scan_exponent s)) <= String.length s.
Proof.
  unfold scan_exponent. destruct s as [|e [|x s]]; simpl; try lia.
  destruct (Ascii.eqb e "e"%char || Ascii.eqb e "E"%char); simpl; [|lia].
  destruct (is_digit x).
  - pose proof (take_digits_length s). destruct (take_digits s); simpl in *. lia.
  - destruct (Ascii.eqb x "-"%char || Ascii.eqb x "+"%char); simpl; [|lia].
    destruct s as [|d s]; simpl; [lia|].
    destruct (is_digit d); simpl; [|lia].
    pose proof (take_digits_length s). destruct (take_digits s); simpl in *. lia.
Qed.

Lemma scan_number_within (pos : nat) (s : string) :
  within (String.length s) (scan_number pos s).
Proof.
  unfold scan_number.
  destruct (scan_integer s) as [[int r1]|] eqn:Hi; simpl; [|trivial].
  apply scan_integer_length in Hi.
  pose proof (scan_fraction_length r1) as Hf.
  destruct (scan_fraction r1) as [frac r2]; simpl in Hf.
  pose proof (scan_exponent_length r2) as He.
  destruct (scan_exponent r2) as [expo r3]; simpl in He.
  simpl. lia.
Qed.

Lemma scan_atom_within (pos : nat) (s : string) :
  within (String.length s) (scan_atom pos s).
Proof.
  unfold scan_atom.
  repeat match goal with
         | |- context [after_word ?w s] =>
             let H := fresh "H" in
             destruct (after_word w s) eqn:H;
             [apply after_word_length in H; simpl in H; simpl; lia|]
         end.
  apply scan_number_within.
Qed.

Lemma scanstring_within (s : string) :
  forall skip begin pos, within (String.length s) (scanstring skip begin pos s).
Proof.
  induction s as [|c s1 IH]; intros skip begin pos; simpl; [trivial|].
  assert (R : forall k b p, within (S (String.length s1)) (scanstring k b p s1)).
  { intros k b p. apply (within_weaken (String.length s1)); [apply IH | lia]. }
  destruct skip as [|k]; [|apply R].
  destruct (Ascii.eqb c "034"%char); [simpl; lia|].
  destruct (Ascii.eqb c "092"%char).
  - destruct (scan_escape pos s1); simpl; trivial. apply within_prepend, R.
  - destruct (Nat.ltb (nat_of_ascii c) 32); simpl; trivial. apply within_prepend, R.
Qed.

(** With more than two units of fuel per character left to read, a term is
    read without lack of fuel; the loops of an array and of an object, which
    are entered one unit below, need one unit more. *)
Lemma scan_fuel (fuel : nat) :
  (forall pos s, 2 * String.length s < fuel ->
                 within (String.length s) (scan_once fuel pos s))
  /\ (forall pos s, 2 * String.length s + 1 < fuel ->
                    within (String.length s) (array_items fuel pos s))
  /\ (forall pos s acc, 2 * String.length s + 1 < fuel ->
                        within (String.length s) (object_items fuel pos s acc)).
Proof.
  induction fuel as [|fuel (IHs & IHa & IHo)].
  - repeat split; intros; lia.
  - repeat split.
    + intros pos s Hf. cbn [scan_once].
      destruct s as [|c s1]; [simpl; trivial|].
      destruct (Ascii.eqb c "034"%char).
      { pose proof (scanstring_within s1 0 pos (S pos)) as W.
        destruct (scanstring 0 pos (S pos) s1); simpl in *; trivial. lia. }
      destruct (Ascii.eqb c "{"%char).
      { pose proof (skip_ws_length s1 (S pos)) as L.
        destruct (skip_ws (S pos) s1) as [p1 r1]; simpl in L.
        destruct (after_word "}" r1) as [r2|] eqn:E.
        - apply after_word_length in E. simpl in *. lia.
        - assert (W : within (String.length r1) (object_items fuel p1 r1 []))
            by (apply IHo; simpl in Hf; lia).
          destruct (object_items fuel p1 r1 []); simpl in *; trivial. lia. }
      destruct (Ascii.eqb c "["%char).
      { pose proof (skip_ws_length s1 (S pos)) as L.
        destruct (skip_ws (S pos) s1) as [p1 r1]; simpl in L.
        destruct (after_word "]" r1) as [r2|] eqn:E.
        - apply after_word_length in E. simpl in *. lia.
        - assert (W : within (String.length r1) (array_items fuel p1 r1))
            by (apply IHa; simpl in Hf; lia).
          destruct (array_items fuel p1 r1); simpl in *; trivial. lia. }
      apply scan_atom_within.
    + intros pos s Hf. cbn [array_items].
      assert (W : within (String.length s) (scan_once fuel pos s)) by (apply IHs; lia).
      destruct (scan_once fuel pos s) as [v p1 r1| |]; simpl in W; trivial.
      pose proof (skip_ws_length r1 p1) as L.
      destruct (skip_ws p1 r1) as [p2 r2]; simpl in L.
      destruct r2 as [|c r3]; [simpl; trivial|].
      destruct (Ascii.eqb c "]"%char); [simpl in *; lia|].
      destruct (Ascii.eqb c ","%char); [|simpl; trivial].
      pose proof (skip_ws_length r3 (S p2)) as L'.
      destruct (skip_ws (S p2) r3) as [p4 r4]; simpl in L'.
      apply within_prepend.
      apply (within_weaken (String.length r4)); [apply IHa|]; simpl in *; lia.
    + intros pos s acc Hf. cbn [object_items].
      destruct (after_word dq s) as [s1|] eqn:E; [|simpl; trivial].
      apply after_word_length in E. simpl in E.
      pose proof (scanstring_within s1 0 pos (S pos)) as W.
      destruct (scanstring 0 pos (S pos) s1) as [key p1 r1| |]; simpl in W; trivial.
      pose proof (skip_ws_length r1 p1) as L.
      destruct (skip_ws p1 r1) as [p2 r2]; simpl in L.
      destruct (after_word ":" r2) as [r3|] eqn:E3; [|simpl; trivial].
      apply after_word_length in E3. simpl in E3.
      pose proof (skip_ws_length r3 (S p2)) as L3.
      destruct (skip_ws (S p2) r3) as [p4 r4]; simpl in L3.
      assert (W4 : within (String.length r4) (scan_once fuel p4 r4)) by (apply IHs; lia).
      destruct (scan_once fuel p4 r4) as [v p5 r5| |]; simpl in W4; trivial.
      pose proof (skip_ws_length r5 p5) as L5.
      destruct (skip_ws p5 r5) as [p6 r6]; simpl in L5.
      destruct r6 as [|c r7]; [simpl; trivial|].
      destruct (Ascii.eqb c "}"%char); [simpl in *; lia|].
      destruct (Ascii.eqb c ","%char); [|simpl; trivial].
      pose proof (skip_ws_length r7 (S p6)) as L7.
      destruct (skip_ws (S p6) r7) as [p8 r8]; simpl in L7.
      apply (within_weaken (String.length r8)); [apply IHo|]; simpl in *; lia.
Qed.

(** [json_loads] gives every text enough fuel: what it returns is a value
    or a [JSONDecodeError]. *)
Lemma json_loads_fuel (doc : string) :
  (exists data, json_loads doc = Ok data)
  \/ (exists msg pos, json_loads doc = Raise (JSONDecodeError msg doc pos)).
Proof.
  unfold json_loads.
  destruct (prefix bom doc); [right; eauto|].
  pose proof (skip_ws_length doc 0) as L.
  destruct (skip_ws 0 doc) as [p0 r0]; simpl in L.
  destruct (scan_fuel (S (2 * String.length doc))) as (Hs & _ & _).
  specialize (Hs p0 r0 ltac:(lia)).
  destruct (scan_once (S (2 * String.length doc)) p0 r0) as [v p1 r1|msg p|];
    simpl in Hs; [|right; eauto|contradiction].
  destruct (skip_ws p1 r1) as [p2 r2]. destruct r2; [left|right]; eauto.
Qed.

(** ** Stripping the fence markup *)

Lemma replace_from_unfold (old new : string) (c : ascii) (s : string) :
  replace_from 0 old new (String c s)
  = if prefix old (String c s)
    then new ++ replace_from (String.length old - 1) old new s
    else String c (replace_from 0 old new s).
Proof.
  reflexivity.
Qed.

Lemma occurs_cons (pat : string) (c : ascii) (s : string) :
  occurs pat (String c s) = false ->
  prefix pat (String c s) = false /\ occurs pat s = false.
Proof.
  simpl occurs. intros H. apply orb_false_iff in H. exact H.
Qed.

(** A text that does not begin with a fence does not begin with the longer
    marker either, also when a fence follows it. *)
Lemma no_fence_json_before_fence (t : string) :
  prefix fence t = false -> prefix fence_json (t ++ fence) = false.
Proof.
  unfold fence, fence_json.
  destruct t as [|a [|b [|c t]]]; cbn [prefix append];
    repeat (destruct (ascii_dec _ _)); try congruence.
  destruct t; cbn [prefix]; congruence.
Qed.

Lemma replace_fence_json_id (body : string) :
  occurs fence body = false ->
  replace fence_json "" (body ++ fence) = body ++ fence.
Proof.
  unfold replace. induction body as [|c body IH]; intros H.
  - reflexivity.
  - apply occurs_cons in H. destruct H as [Hp Ho].
    change (String c body ++ fence) with (String c (body ++ fence)).
    rewrite replace_from_unfold.
    change (String c (body ++ fence)) with (String c body ++ fence).
    rewrite (no_fence_json_before_fence _ Hp).
    rewrite (IH Ho). reflexivity.
Qed.

(** Removing the fences of [body ++ fence] leaves [body] when no fence
    occurs in [body]: the only fence found is the closing one, or, when
    [body] ends in backquotes, a run that overlaps it and leaves as many
    backquotes as [body] ends in. *)
Lemma replace_fence_closing (body : string) :
  occurs fence body = false ->
  replace fence "" (body ++ fence) = body.
Proof.
  unfold replace. induction body as [|c body IH]; intros H.
  - reflexivity.
  - apply occurs_cons in H. destruct H as [Hp Ho].
    change (String c body ++ fence) with (String c (body ++ fence)).
    rewrite replace_from_unfold.
    destruct (prefix fence (String c (body ++ fence))) eqn:E.
    + unfold fence in *.
      destruct body as [|b [|d body]]; cbn [prefix append] in E, Hp;
        repeat (destruct (ascii_dec _ _)); subst; try discriminate;
        try reflexivity.
      destruct body; discriminate.
    + rewrite (IH Ho). reflexivity.
Qed.

Lemma clean_text_fenced (body : string) :
  occurs fence body = false ->
  clean_text (fence_json ++ body ++ fence) = body.
Proof.
  intros H. unfold clean_text.
  assert (E : replace fence_json "" (fence_json ++ body ++ fence)
              = replace fence_json "" (body ++ fence)).
  { destruct body; reflexivity. }
  rewrite E, (replace_fence_json_id body H).
  apply replace_fence_closing, H.
Qed.

(** ** The transformer *)

Section Transformer.

Variable generate : string -> string -> result string.
Variables raw_text style : string.

(** What [get_ai_resume] returns, by the outcome of the call and of the
    decoding. *)
Lemma get_ai_resume_cases :
  get_ai_resume generate raw_text style
  = match generate "models/gemini-2.5-flash" (prompt raw_text style) with
    | Raise e => VDict [("error", VStr (exn_str e))]
    | Ok text =>
        match json_loads (clean_text text) with
        | Ok data => data
        | Raise e => VDict [("error", VStr (exn_str e))]
        end
    end.
Proof.
  unfold get_ai_resume.
  destruct (generate "models/gemini-2.5-flash" (prompt raw_text style)); reflexivity.
Qed.

(** C3.  When the call to the backend raises [e], and when the answer, its
    fences stripped, does not decode and the decoder raises [e],
    [get_ai_resume] returns the dictionary whose only key is ["error"], with
    [str(e)]: nothing is raised and no document comes back. *)
Theorem get_ai_resume_error_result (e : exn) :
  generate "models/gemini-2.5-flash" (prompt raw_text style) = Raise e
  \/ (exists text,
        generate "models/gemini-2.5-flash" (prompt raw_text style) = Ok text
        /\ json_loads (clean_text text) = Raise e) ->
  get_ai_resume generate raw_text style = VDict [("error", VStr (exn_str e))].
Proof.
  intros [H | (text & H & Hj)]; rewrite get_ai_resume_cases, H; [|rewrite Hj];
    reflexivity.
Qed.

(** C2, as the code has it.  Whatever the answer decodes to, once its fences
    are stripped, is returned as it is: there is no check of the decoded
    value against the contract. *)
Theorem get_ai_resume_returns_decoded (text : string) (data : value) :
  generate "models/gemini-2.5-flash" (prompt raw_text style) = Ok text ->
  json_loads (clean_text text) = Ok data ->
  get_ai_resume generate raw_text style = data.
Proof.
  intros H Hj. rewrite get_ai_resume_cases, H, Hj. reflexivity.
Qed.

(** C7, as the code has it.  When the answer is a JSON text between the
    opening marker and the closing fence, and no fence occurs inside the
    text, the markup is stripped and what the text decodes to is returned. *)
Theorem get_ai_resume_strips_fences (body : string) (data : value) :
  generate "models/gemini-2.5-flash" (prompt raw_text style)
  = Ok (fence_json ++ body ++ fence) ->
  occurs fence body = false ->
  json_loads body = Ok data ->
  get_ai_resume generate raw_text style = data.
Proof.
  intros H Hno Hj.
  rewrite get_ai_resume_cases, H, (clean_text_fenced body Hno), Hj. reflexivity.
Qed.

End Transformer.

(** *** The claims on the sample answers *)

Lemma get_ai_resume_error_result_witness :
  get_ai_resume (answers "not json") "notes" "Corporate"
  = VDict [("error", VStr "Expecting value: line 1 column 1 (char 0)")]
  /\ get_ai_resume (fails (Exn "ResourceExhausted" "429 quota exceeded"))
       "notes" "Corporate"
     = VDict [("error", VStr "429 quota exceeded")].
Proof.
  split.
  - apply (get_ai_resume_error_result (answers "not json") "notes" "Corporate"
             (JSONDecodeError "Expecting value" "not json" 0)).
    right. exists "not json". split; reflexivity.
  - apply (get_ai_resume_error_result
             (fails (Exn "ResourceExhausted" "429 quota exceeded")) "notes" "Corporate"
             (Exn "ResourceExhausted" "429 quota exceeded")).
    left. reflexivity.
Defined.

Lemma get_ai_resume_returns_decoded_witness :
  get_ai_resume (answers "[1, 2]") "notes" "Corporate" = VList [VInt 1; VInt 2].
Proof.
  apply (get_ai_resume_returns_decoded (answers "[1, 2]") "notes" "Corporate" "[1, 2]");
    reflexivity.
Defined.

(** C2, as stated, fails: the answer [[1, 2]] is JSON and is no document of
    the contract, and it comes back as the result, not as an error. *)
Lemma get_ai_resume_returns_a_list :
  json_loads (clean_text "[1, 2]") = Ok (VList [VInt 1; VInt 2])
  /\ as_resume (VList [VInt 1; VInt 2]) = None
  /\ get_ai_resume (answers "[1, 2]") "notes" "Corporate" = VList [VInt 1; VInt 2].
Proof.
  repeat split.
Qed.

Lemma get_ai_resume_strips_fences_witness :
  get_ai_resume (answers (fence_json ++ jane_json ++ fence)) "notes" "Corporate"
  = jane_data.
Proof.
  apply (get_ai_resume_strips_fences (answers (fence_json ++ jane_json ++ fence))
           "notes" "Corporate" jane_json jane_data);
    reflexivity.
Defined.

(** C7, as stated, fails: every fence of the answer is removed, also one
    inside the JSON text, so a document whose summary holds a fence comes
    back with another summary. *)
Lemma get_ai_resume_strips_inner_fence :
  json_loads fence_inside_json = Ok (VDict [("summary", VStr "Use ``` fences")])
  /\ as_resume (VDict [("summary", VStr "Use ``` fences")]) = Some fence_inside_document
  /\ get_ai_resume (answers (fence_json ++ fence_inside_json ++ fence))
       "notes" "Corporate"
     = VDict [("summary", VStr "Use  fences")].
Proof.
  repeat split.
Qed.


(** * Further properties *)

(** ** What cleaning leaves of the fences *)

Lemma replace_absent (old new : string) (s : string) :
  occurs old s = false -> replace old new s = s.
Proof.
  unfold replace. induction s as [|c s IH]; intros H.
  - reflexivity.
  - apply occurs_cons in H. destruct H as [Hp Ho].
    rewrite replace_from_unfold, Hp, (IH Ho). reflexivity.
Qed.

Lemma occurs_unfold (pat : string) (c : ascii) (s : string) :
  occurs pat (String c s) = prefix pat (String c s) || occurs pat s.
Proof.
  reflexivity.
Qed.

Lemma no_fence_no_fence_json (s : string) :
  occurs fence s = false -> occurs fence_json s = false.
Proof.
  induction s as [|c s IH]; intros H.
  - reflexivity.
  - apply occurs_cons in H. destruct H as [Hp Ho].
    rewrite occurs_unfold, (IH Ho), orb_false_r.
    unfold fence, fence_json in *.
    destruct s as [|b [|d s]]; cbn [prefix] in Hp |- *;
      repeat (destruct (ascii_dec _ _)); try reflexivity; try discriminate.
    destruct s; discriminate.
Qed.

Lemma clean_text_without_fence (text : string) :
  occurs fence text = false -> clean_text text = text.
Proof.
  intros H. unfold clean_text.
  rewrite (replace_absent fence_json "" text (no_fence_no_fence_json text H)).
  apply replace_absent, H.
Qed.

(** Removing the fences does not touch a first character that is not a
    backquote. *)
Lemma replace_fence_head (s : string) :
  prefix "`" s = false -> prefix "`" (replace fence "" s) = false.
Proof.
  unfold replace, fence. destruct s as [|c s]; [reflexivity|].
  rewrite replace_from_unfold. cbn [prefix].
  destruct (ascii_dec "`" c); [destruct s; discriminate|].
  intros _. cbn [prefix]. destruct (ascii_dec "`" c); [contradiction | reflexivity].
Qed.

Lemma no_backquote_no_pair (r : string) :
  prefix "`" r = false -> prefix "``" r = false.
Proof.
  destruct r as [|c r]; cbn [prefix]; [reflexivity|].
  destruct (ascii_dec "`" c); [destruct r; discriminate | reflexivity].
Qed.

Lemma replace_fence_leaves_none (n : nat) :
  forall s, String.length s <= n -> occurs fence (replace fence "" s) = false.
Proof.
  induction n as [|n IH]; intros s Hn.
  - destruct s; [reflexivity | simpl in Hn; lia].
  - destruct s as [|c s1]; [reflexivity|].
    unfold replace. rewrite replace_from_unfold.
    destruct (prefix fence (String c s1)) eqn:E.
    + unfold fence in E |- *. cbn [prefix] in E.
      destruct (ascii_dec "`" c); [|discriminate].
      destruct s1 as [|b [|d s3]]; try discriminate;
        cbn [prefix] in E; repeat (destruct (ascii_dec _ _)); try discriminate.
      cbn [String.length Nat.sub append replace_from].
      apply (IH s3). simpl in Hn. lia.
    + fold (replace fence "" s1). rewrite occurs_unfold.
      rewrite (IH s1) by (simpl in Hn; lia). rewrite orb_false_r.
      unfold fence in E |- *. cbn [prefix] in E |- *.
      destruct (ascii_dec "`" c); [|reflexivity].
      destruct s1 as [|b s2]; [reflexivity|].
      cbn [prefix] in E.
      destruct (ascii_dec "`" b) as [<-|Hb].
      * assert (H2 : prefix "`" s2 = false).
        { destruct s2 as [|d s2]; [reflexivity|]. cbn [prefix] in E |- *.
          destruct (ascii_dec "`" d); [destruct s2; discriminate | reflexivity]. }
        unfold replace. rewrite replace_from_unfold. cbn [prefix].
        destruct (ascii_dec "`" "`"); [|contradiction].
        rewrite (no_backquote_no_pair s2 H2).
        cbn [prefix]. destruct (ascii_dec "`" "`"); [|contradiction].
        apply (replace_fence_head s2 H2).
      * apply no_backquote_no_pair, replace_fence_head.
        cbn [prefix]. destruct (ascii_dec "`" b); [contradiction | reflexivity].
Qed.

(** X1.  Whatever the answer, no fence is left in the text that is handed
    to the decoder. *)
Theorem clean_text_leaves_no_fence (text : string) :
  occurs fence (clean_text text) = false.
Proof.
  unfold clean_text. eapply replace_fence_leaves_none. apply Nat.le_refl.
Qed.

(** X2.  An answer in which no fence occurs is decoded as it is. *)
Theorem get_ai_resume_without_fence (generate : string -> string -> result string)
  (raw_text style text : string) (data : value) :
  generate "models/gemini-2.5-flash" (prompt raw_text style) = Ok text ->
  occurs fence text = false ->
  json_loads text = Ok data ->
  get_ai_resume generate raw_text style = data.
Proof.
  intros H Hno Hj.
  rewrite get_ai_resume_cases, H, (clean_text_without_fence text Hno), Hj.
  reflexivity.
Qed.

Lemma get_ai_resume_without_fence_witness :
  get_ai_resume (answers jane_json) "notes" "Corporate" = jane_data.
Proof.
  apply (get_ai_resume_without_fence (answers jane_json) "notes" "Corporate"
           jane_json jane_data);
    reflexivity.
Defined.

(** ** The renderer and a job without details *)

Lemma bind_raises {A B : Type} (r : result A) (k : A -> result B) :
  (forall a, r = Ok a -> exists e, k a = Raise e) -> exists e, bind r k = Raise e.
Proof.
  intros H. destruct r as [a|e]; simpl; [apply H; reflexivity | eauto].
Qed.

Lemma for_each_raises {S : Type} (body : value -> S -> result S) (items : list value) :
  (exists x, In x items /\ forall st, exists e, body x st = Raise e) ->
  forall st, exists e, for_each items body st = Raise e.
Proof.
  intros (x & Hin & Hx). induction items as [|y rest IH]; intros st.
  - contradiction.
  - simpl. destruct Hin as [->|Hin].
    + destruct (Hx st) as (e & ->). simpl. eauto.
    + destruct (body y st) as [st'|e]; simpl; [apply IH, Hin | eauto].
Qed.

Lemma experience_body_needs_details (kvs : list (string * value)) (pdf : FPDF) :
  dict_get kvs "details" = None ->
  exists e, experience_body (VDict kvs) pdf = Raise e.
Proof.
  intros H. unfold experience_body.
  repeat (apply bind_raises; intros ? ?; cbv zeta).
  match goal with
  | G : getitem_str (VDict kvs) "details" = Ok _ |- _ =>
      unfold getitem_str in G; rewrite H in G; discriminate G
  end.
Qed.

(** X3.  Whatever else the dictionary holds, an experience entry without a
    ['details'] key makes [create_pdf] raise: no bytes are returned. *)
Theorem create_pdf_needs_details (now : Z) (kvs job : list (string * value))
  (jobs : list value) :
  dict_get kvs "experience" = Some (VList jobs) ->
  In (VDict job) jobs ->
  dict_get job "details" = None ->
  exists e, create_pdf now (VDict kvs) = Raise e.
Proof.
  intros Hexp Hin Hjob. unfold create_pdf.
  assert (Hloop : forall pdf, exists e, for_each jobs experience_body pdf = Raise e).
  { apply for_each_raises. exists (VDict job). split; [exact Hin|].
    intros pdf. apply experience_body_needs_details, Hjob. }
  repeat (apply bind_raises; intros ? ?; cbv zeta).
  match goal with
  | H : get (VDict kvs) "experience" _ = Ok ?v, I : iter ?v = Ok ?l,
    F : for_each ?l experience_body ?pdf = Ok _ |- _ =>
      unfold get in H; rewrite Hexp in H; injection H as <-;
      injection I as <-;
      destruct (Hloop pdf) as (e & He); rewrite He in F; discriminate F
  end.
Qed.

Lemma create_pdf_needs_details_witness :
  exists e, create_pdf 0 job_without_details = Raise e.
Proof.
  apply (create_pdf_needs_details 0
           [("experience",
             VList [VDict [("role", VStr "Engineer"); ("company", VStr "PTCL")]])]
           [("role", VStr "Engineer"); ("company", VStr "PTCL")]
           [VDict [("role", VStr "Engineer"); ("company", VStr "PTCL")]]).
  - reflexivity.
  - simpl. left. reflexivity.
  - reflexivity.
Defined.

(** ** The preview *)

Lemma get_or_else (kvs : list (string * value)) (k : string) (default : value) :
  get (VDict kvs) k default = Ok (or_else default (dict_get kvs k)).
Proof.
  unfold get. destruct (dict_get kvs k); reflexivity.
Qed.

(** What a dictionary that reads as [r] holds under each key of the
    schema. *)
Lemma as_resume_fields (kvs : list (string * value)) (r : ResumeDocument) :
  as_resume (VDict kvs) = Some r ->
  optional as_str (dict_get kvs "name") = Some (name r)
  /\ optional as_str (dict_get kvs "title") = Some (title r)
  /\ optional as_str (dict_get kvs "summary") = Some (summary r)
  /\ optional as_contact (dict_get kvs "contact") = Some (contact r)
  /\ optional (as_list as_str) (dict_get kvs "skills") = Some (skills r)
  /\ optional (as_list as_education) (dict_get kvs "education") = Some (education r)
  /\ optional (as_list as_experience) (dict_get kvs "experience")
     = Some (experience r).
Proof.
  intros H. unfold as_resume in H. repeat read_field H.
  inversion H; subst; clear H. cbn. repeat split; assumption.
Qed.

Lemma ui_bind_ok {A B : Type} (calls : list st_call) (a : A) (k : A -> UI B) :
  ui_bind (calls, Ok a) k = ((calls ++ fst (k a))%list, snd (k a)).
Proof.
  unfold ui_bind. destruct (k a); reflexivity.
Qed.

(** X4.  When the backend call or the decoding fails, the preview shows the
    message under ["AI Error: "] and nothing else: the renderer is not
    called and no download is offered. *)
Theorem preview_shows_the_failure (now : Z)
  (generate : string -> string -> result string)
  (raw_text style : string) (e : exn) :
  generate "models/gemini-2.5-flash" (prompt raw_text style) = Raise e
  \/ (exists text,
        generate "models/gemini-2.5-flash" (prompt raw_text style) = Ok text
        /\ json_loads (clean_text text) = Raise e) ->
  preview now (Some (get_ai_resume generate raw_text style))
  = ([st_header "2. Preview"; st_error ("AI Error: " ++ exn_str e)], Ok tt).
Proof.
  intros H.
  assert (E : get_ai_resume generate raw_text style
              = VDict [("error", VStr (exn_str e))]).
  { rewrite get_ai_resume_cases.
    destruct H as [H | (text & H & Hj)]; rewrite H; [|rewrite Hj]; reflexivity. }
  rewrite E. reflexivity.
Qed.

Lemma preview_shows_the_failure_witness :
  preview 0 (Some (get_ai_resume (fails quota_error) "notes" "Corporate"))
  = ([st_header "2. Preview"; st_error "AI Error: 429 quota exceeded"], Ok tt).
Proof.
  apply (preview_shows_the_failure 0 (fails quota_error) "notes" "Corporate"
           quota_error).
  left. reflexivity.
Defined.

(** X5.  A decoded value that is not a dictionary never gets a download
    button: after the header the preview raises, at the membership test,
    at the indexing with ["error"] or at the first [get] of [create_pdf]. *)
Theorem preview_raises_without_dict (now : Z) (data : value) :
  is_dict data = false ->
  exists e, preview now (Some data) = ([st_header "2. Preview"], Raise e).
Proof.
  intros H. destruct data as [| | | |s|items|kvs]; try discriminate H;
    try (eexists; reflexivity).
  - unfold preview, emit, lift. cbn [contains]. rewrite !ui_bind_ok. cbn [fst snd].
    destruct (occurs "error" s); eexists; reflexivity.
  - unfold preview, emit, lift. cbn [contains]. rewrite !ui_bind_ok. cbn [fst snd].
    destruct (existsb _ items); eexists; reflexivity.
Qed.

Lemma preview_raises_without_dict_witness :
  exists e, preview 0 (Some (get_ai_resume (answers "[1, 2]") "notes" "Corporate"))
            = ([st_header "2. Preview"], Raise e).
Proof.
  apply (preview_raises_without_dict 0 (VList [VInt 1; VInt 2])). reflexivity.
Defined.

(** X6.  For every printable document of the contract that has no
    ["error"] key the preview begins with the download button: it offers
    the bytes of [create_pdf], under the name ["ResumeAI_<name>.pdf"] with
    ["Output"] for an absent name, whatever the rest of the preview
    does. *)
Theorem preview_offers_the_pdf (now : Z) (data : value) (r : ResumeDocument) :
  as_resume data = Some r ->
  printable r = true ->
  contains data "error" = Ok false ->
  exists rest outcome,
    preview now (Some data)
    = (st_header "2. Preview"
         :: st_download_button "Download as PDF 💾" (Output (layout r) now)
              ("ResumeAI_" ++ or_else "Output" (name r) ++ ".pdf") "application/pdf"
         :: rest,
       outcome).
Proof.
  intros H Hp Herr. destruct data as [| | | | | |kvs]; try discriminate H.
  pose proof (as_resume_fields kvs r H) as (Hn & _).
  unfold preview, emit, lift. rewrite Herr, !ui_bind_ok. cbn [fst snd].
  unfold preview_document. rewrite (create_pdf_layout now _ r H Hp).
  rewrite (get_optional_str kvs "name" "Output" _ Hn).
  unfold lift, emit. rewrite 4 ui_bind_ok. cbn [fst snd py_str List.app].
  eexists. eexists. reflexivity.
Qed.

Lemma preview_offers_the_pdf_witness :
  exists rest outcome,
    preview 0 (Some two_jobs)
    = (st_header "2. Preview"
         :: st_download_button "Download as PDF 💾" (Output (layout two_jobs_document) 0)
              "ResumeAI_Output.pdf" "application/pdf"
         :: rest,
       outcome).
Proof.
  exact (preview_offers_the_pdf 0 two_jobs two_jobs_document eq_refl eq_refl eq_refl).
Defined.

(** *** The loops of the preview *)

Lemma all_as_str_map (items : list value) :
  forall l, all as_str items = Some l -> items = map VStr l.
Proof.
  induction items as [|x rest IH]; intros l H.
  - inversion H; reflexivity.
  - apply all_cons_inv in H. destruct H as (a & l' & Hx & Hrest & ->).
    destruct x; try discriminate. inversion Hx; subst.
    simpl. rewrite <- (IH l' Hrest). reflexivity.
Qed.

Lemma ui_for_each_tasks (l : list string) :
  ui_for_each (map VStr l) (fun task => emit (st_markdown ("- " ++ py_str task)))
  = (map (fun task => st_markdown ("- " ++ task)) l, Ok tt).
Proof.
  induction l as [|t l IH]; [reflexivity|].
  cbn [map ui_for_each]. rewrite IH. reflexivity.
Qed.

Lemma as_experience_inv (job : value) (j : ExperienceEntry) :
  as_experience job = Some j ->
  exists kvs,
    job = VDict kvs
    /\ dict_get kvs "role" = option_map VStr (role j)
    /\ dict_get kvs "company" = option_map VStr (company j)
    /\ dict_get kvs "details" = Some (VList (map VStr (details j))).
Proof.
  intros H. destruct job as [| | | | | |kvs]; try discriminate H.
  unfold as_experience in H. repeat read_field H.
  destruct (dict_get kvs "details") as [ds|] eqn:Hd; [|discriminate H].
  destruct (as_list as_str ds) as [l|] eqn:Hl; [|discriminate H].
  inversion H; subst; clear H. cbn [role company details].
  apply as_list_inv in Hl. destruct Hl as (items & -> & Hall).
  rewrite (all_as_str_map items l Hall) in Hd.
  exists kvs. split; [reflexivity|]. split; [|split; [|exact Hd]].
  - unfold optional in E0. destruct (dict_get kvs "role") as [[]|];
      simpl in E0; inversion E0; reflexivity.
  - unfold optional in E. destruct (dict_get kvs "company") as [[]|];
      simpl in E; inversion E; reflexivity.
Qed.

Lemma preview_experience_body_named (job : value) (j : ExperienceEntry) :
  as_experience job = Some j -> named j = true ->
  preview_experience_body job = (preview_job j, Ok tt).
Proof.
  intros H Hn. apply as_experience_inv in H.
  destruct H as (kvs & -> & Hr & Hc & Hd).
  unfold named in Hn. unfold preview_experience_body, preview_job, getitem_str, iter.
  rewrite Hr, Hc, Hd.
  destruct (role j); [|discriminate]. destruct (company j); [|discriminate].
  cbn [option_map iterate or_else].
  pose proof (ui_for_each_tasks (details j)) as T.
  unfold emit, lift in *. cbn [ui_bind py_str iterate]. rewrite T. reflexivity.
Qed.

Lemma preview_experience_body_unnamed (job : value) (j : ExperienceEntry) :
  as_experience job = Some j -> named j = false ->
  exists e, preview_experience_body job = ([], Raise e) /\ exn_class e = "KeyError".
Proof.
  intros H Hn. apply as_experience_inv in H.
  destruct H as (kvs & -> & Hr & Hc & Hd).
  unfold named in Hn. unfold preview_experience_body, getitem_str.
  rewrite Hr, Hc.
  destruct (role j); [destruct (company j); [discriminate|]|];
    eexists; split; reflexivity.
Qed.

Lemma preview_education_body_line (edu : value) (e : EducationEntry) :
  as_education edu = Some e ->
  preview_education_body edu = ([preview_education e], Ok tt).
Proof.
  intros H. destruct edu as [| | | | | |kvs]; try discriminate H.
  unfold as_education in H. repeat read_field H.
  inversion H; subst; clear H.
  unfold preview_education_body.
  repeat (erewrite get_optional_str by eassumption).
  reflexivity.
Qed.

Section PreviewLoop.

Variable A : Type.
Variable read : value -> option A.
Variable good : A -> bool.
Variable lines : A -> list st_call.
Variable body : value -> UI unit.

Hypothesis body_good :
  forall x a, read x = Some a -> good a = true -> body x = (lines a, Ok tt).

Lemma ui_for_each_lines (items : list value) :
  forall entries,
    all read items = Some entries -> forallb good entries = true ->
    ui_for_each items body = (flat_map lines entries, Ok tt).
Proof.
  induction items as [|x rest IH]; intros entries H Hg.
  - inversion H; reflexivity.
  - apply all_cons_inv in H. destruct H as (a & entries' & Hx & Hrest & ->).
    cbn [forallb] in Hg. apply andb_true_iff in Hg. destruct Hg as [Ha Hg].
    cbn [ui_for_each flat_map].
    rewrite (body_good x a Hx Ha), (IH entries' Hrest Hg). reflexivity.
Qed.

Hypothesis body_bad :
  forall x a, read x = Some a -> good a = false ->
              exists e, body x = ([], Raise e) /\ exn_class e = "KeyError".

Lemma ui_for_each_stops (items : list value) :
  forall entries,
    all read items = Some entries -> forallb good entries = false ->
    exists calls e,
      ui_for_each items body = (calls, Raise e) /\ exn_class e = "KeyError".
Proof.
  induction items as [|x rest IH]; intros entries H Hg.
  - inversion H; subst. discriminate Hg.
  - apply all_cons_inv in H. destruct H as (a & entries' & Hx & Hrest & ->).
    cbn [forallb] in Hg. cbn [ui_for_each].
    destruct (good a) eqn:Ha.
    + destruct (IH entries' Hrest Hg) as (calls & e & Hloop & He).
      rewrite (body_good x a Hx Ha), Hloop.
      exists (lines a ++ calls)%list, e. split; [reflexivity | exact He].
    + destruct (body_bad x a Hx Ha) as (e & Hb & He).
      rewrite Hb. exists [], e. split; [reflexivity | exact He].
Qed.

End PreviewLoop.

(** *** The whole preview *)

(** The preview of a printable document of the contract up to its
    experience loop; what is left is the two loops. *)
Lemma preview_until_experience (now : Z) (data contact_data : value)
  (r : ResumeDocument) :
  as_resume data = Some r ->
  printable r = true ->
  contains data "error" = Ok false ->
  get data "contact" (VDict []) = Ok contact_data ->
  exists jobs edus,
    all as_experience jobs = Some (or_else [] (experience r))
    /\ all as_education edus = Some (or_else [] (education r))
    /\ preview now (Some data)
       = ((st_header "2. Preview" :: download now r
             :: preview_top (truthy contact_data) r, Ok tt) ;;;
          ui_for_each jobs preview_experience_body ;;;
          emit (st_subheader "Education") ;;;
          ui_for_each edus preview_education_body).
Proof.
  intros H Hp Herr Hcontact. destruct data as [| | | | | |kvs]; try discriminate H.
  pose proof (create_pdf_layout now _ r H Hp) as Hpdf.
  apply as_resume_fields in H.
  destruct H as (Hn & Ht & Hs & Hc & Hsk & Hed & Hex).
  apply get_optional_list in Hsk. destruct Hsk as (skills_list & Hsk & Hskills).
  apply get_optional_list in Hed. destruct Hed as (edus & Hed & Hedus).
  apply get_optional_list in Hex. destruct Hex as (jobs & Hex & Hjobs).
  apply get_optional_contact in Hc. destruct Hc as (contact_data' & Hc & Hread).
  rewrite Hcontact in Hc. inversion Hc; subst contact_data'; clear Hc.
  destruct (contact_gets _ _ Hread) as (Hemail & Hphone & Hlinkedin).
  exists jobs, edus. split; [exact Hjobs|]. split; [exact Hedus|].
  unfold preview. rewrite Herr. unfold preview_document.
  rewrite Hpdf, Hcontact, Hsk, Hex, Hed.
  repeat (erewrite get_optional_str by eassumption).
  unfold join, iter, lift, emit. cbn [ui_bind iterate bind].
  rewrite (join_items_strings _ _ _ Hskills).
  unfold download, preview_top, preview_contact.
  destruct (truthy contact_data);
    [rewrite Hemail, Hphone; cbn [ui_bind]; rewrite Hlinkedin;
     destruct (linkedin (or_else no_contact (contact r))) as [[|a l]|];
     cbn [ui_bind truthy]; try rewrite Hlinkedin|];
    destruct (ui_for_each edus preview_education_body) as [calls2 outcome2];
    destruct (ui_for_each jobs preview_experience_body) as [calls1 [[]|e1]];
    reflexivity.
Qed.

Lemma forallb_always {A : Type} (l : list A) : forallb (fun _ => true) l = true.
Proof.
  induction l; [reflexivity | assumption].
Qed.

(** X7.  For a printable document of the contract without an ["error"]
    key whose experience entries all have a role and a company, the
    preview runs to its end: header, download button, then the name, the
    title, the contact lines (only when the contact dictionary has a key),
    the summary, the skills joined by a bullet, every experience entry with
    all of its details, and the education entry. *)
Theorem preview_complete_document (now : Z) (data contact_data : value)
  (r : ResumeDocument) :
  as_resume data = Some r ->
  printable r = true ->
  contains data "error" = Ok false ->
  get data "contact" (VDict []) = Ok contact_data ->
  forallb named (or_else [] (experience r)) = true ->
  preview now (Some data)
  = (st_header "2. Preview" :: download now r
       :: preview_sections (truthy contact_data) r, Ok tt).
Proof.
  intros H Hp Herr Hcontact Hnamed.
  destruct (preview_until_experience now data contact_data r H Hp Herr Hcontact)
    as (jobs & edus & Hjobs & Hedus & ->).
  rewrite (ui_for_each_lines ExperienceEntry as_experience named preview_job
             preview_experience_body preview_experience_body_named
             jobs _ Hjobs Hnamed).
  rewrite (ui_for_each_lines EducationEntry as_education (fun _ => true)
             (fun e => [preview_education e]) preview_education_body
             (fun x a Hx _ => preview_education_body_line x a Hx)
             edus _ Hedus (forallb_always _)).
  rewrite flat_map_singleton. unfold preview_sections, emit.
  cbn [ui_bind]. reflexivity.
Qed.

Lemma preview_complete_document_witness :
  preview 0 (Some full_resume)
  = (st_header "2. Preview" :: download 0 full_resume_document
       :: preview_sections true full_resume_document, Ok tt).
Proof.
  exact (preview_complete_document 0 full_resume
           (VDict [("email", VStr "jane@example.org")]) full_resume_document
           eq_refl eq_refl eq_refl eq_refl eq_refl).
Defined.

(** X8.  The preview reads the role and the company of an experience
    entry by indexing, where [create_pdf] reads them with a fallback: a
    printable document of the contract with an entry that lacks one of the
    two is
    rendered and offered for download, and the preview then raises
    [KeyError] before its end. *)
Theorem preview_needs_role_and_company (now : Z) (data : value)
  (r : ResumeDocument) :
  as_resume data = Some r ->
  printable r = true ->
  contains data "error" = Ok false ->
  forallb named (or_else [] (experience r)) = false ->
  exists shown e,
    preview now (Some data)
    = (st_header "2. Preview" :: download now r :: shown, Raise e)
    /\ exn_class e = "KeyError".
Proof.
  intros H Hp Herr Hnamed.
  assert (Hc : exists contact_data, get data "contact" (VDict []) = Ok contact_data).
  { destruct data as [| | | | | |kvs]; try discriminate H.
    rewrite get_or_else. eexists; reflexivity. }
  destruct Hc as (contact_data & Hcontact).
  destruct (preview_until_experience now data contact_data r H Hp Herr Hcontact)
    as (jobs & edus & Hjobs & _ & ->).
  destruct (ui_for_each_stops ExperienceEntry as_experience named preview_job
              preview_experience_body preview_experience_body_named
              preview_experience_body_unnamed jobs _ Hjobs Hnamed)
    as (calls & e & -> & He).
  exists (preview_top (truthy contact_data) r ++ calls)%list, e.
  split; [reflexivity | exact He].
Qed.

Lemma preview_needs_role_and_company_witness :
  exists shown e,
    preview 0 (Some two_jobs)
    = (st_header "2. Preview" :: download 0 two_jobs_document :: shown, Raise e)
    /\ exn_class e = "KeyError".
Proof.
  exact (preview_needs_role_and_company 0 two_jobs two_jobs_document
           eq_refl eq_refl eq_refl eq_refl).
Defined.

(** ** One run of the page *)

(** X9.  Without a key, or with an empty one, a run shows the error and
    stops: whatever the button, the notes and the backend, nothing else is
    drawn, the backend is not configured and the session is left as it
    was. *)
Theorem app_stops_without_key (now : Z) (GOOGLE_API_KEY : option string)
  (generate : string -> string -> result string)
  (resume_style user_input : string) (clicked : bool) (session : option value) :
  or_else "" GOOGLE_API_KEY = "" ->
  exists message,
    app now GOOGLE_API_KEY generate resume_style user_input clicked session
    = (session, ([st_error message; st_stop], Ok tt)).
Proof.
  intros H. destruct GOOGLE_API_KEY as [k|]; cbn [or_else] in H; subst;
    eexists; reflexivity.
Qed.

Lemma app_stops_without_key_witness :
  exists message,
    app 0 (Some "") (answers jane_json) "Corporate" "notes" true (Some jane_data)
    = (Some jane_data, ([st_error message; st_stop], Ok tt)).
Proof.
  exact (app_stops_without_key 0 (Some "") (answers jane_json) "Corporate" "notes"
           true (Some jane_data) eq_refl).
Defined.

(** X10.  Only a click with notes in the text area changes the session: a
    run without a click, and a click on empty notes, leave it as it was,
    with or without a key. *)
Theorem app_keeps_the_session (now : Z) (GOOGLE_API_KEY : option string)
  (generate : string -> string -> result string)
  (resume_style user_input : string) (clicked : bool) (session : option value) :
  clicked && truthy (VStr user_input) = false ->
  fst (app now GOOGLE_API_KEY generate resume_style user_input clicked session) = session.
Proof.
  intros H. unfold app, input_column.
  destruct (negb (truthy _)); [reflexivity|].
  destruct clicked; [|reflexivity].
  cbn [andb] in H. rewrite H. reflexivity.
Qed.

Lemma app_keeps_the_session_witness :
  fst (app 0 (Some "key") (answers jane_json) "Corporate" "" true (Some two_jobs))
  = Some two_jobs.
Proof.
  exact (app_keeps_the_session 0 (Some "key") (answers jane_json) "Corporate" ""
           true (Some two_jobs) eq_refl).
Defined.

Lemma app_submitted (now : Z) (key : string) (generate : string -> string -> result string)
  (resume_style user_input : string) (session : option value) :
  truthy (VStr key) = true -> truthy (VStr user_input) = true ->
  exists drawn,
    app now (Some key) generate resume_style user_input true session
    = (Some (get_ai_resume generate user_input resume_style),
       (((drawn ++ [st_success "Done!"; with_column 2])%list, Ok tt) ;;;
        preview now (Some (get_ai_resume generate user_input resume_style)))).
Proof.
  intros Hk Hi. unfold app, input_column. rewrite Hk, Hi. cbn [negb].
  eexists. unfold emit.
  destruct (preview now (Some (get_ai_resume generate user_input resume_style)))
    as [calls outcome].
  cbn [ui_bind List.app]. f_equal. f_equal.
  instantiate (1 := [_; _; _; _; _; _; _; _; _; _; _; _]). reflexivity.
Qed.

(** X11.  A click with notes whose backend call raises [e] stores the error
    dictionary in the session; the input column still reports ["Done!"],
    and the preview column shows the message of [e] as the error. *)
Theorem app_reports_done_then_the_failure (now : Z) (key : string)
  (generate : string -> string -> result string)
  (resume_style user_input : string) (session : option value) (e : exn) :
  truthy (VStr key) = true -> truthy (VStr user_input) = true ->
  generate "models/gemini-2.5-flash" (prompt user_input resume_style) = Raise e ->
  exists drawn,
    app now (Some key) generate resume_style user_input true session
    = (Some (VDict [("error", VStr (exn_str e))]),
       ((drawn ++ [st_success "Done!"; with_column 2; st_header "2. Preview";
                   st_error ("AI Error: " ++ exn_str e)])%list, Ok tt)).
Proof.
  intros Hk Hi He.
  destruct (app_submitted now key generate resume_style user_input session Hk Hi)
    as (drawn & ->).
  rewrite get_ai_resume_cases, He. exists drawn.
  cbn. rewrite <- app_assoc. reflexivity.
Qed.

Lemma app_reports_done_then_the_failure_witness :
  exists drawn,
    app 0 (Some "key") (fails quota_error) "Corporate" "notes" true None
    = (Some (VDict [("error", VStr "429 quota exceeded")]),
       ((drawn ++ [st_success "Done!"; with_column 2; st_header "2. Preview";
                   st_error "AI Error: 429 quota exceeded"])%list, Ok tt)).
Proof.
  exact (app_reports_done_then_the_failure 0 "key" (fails quota_error) "Corporate"
           "notes" None quota_error eq_refl eq_refl eq_refl).
Defined.

(** X12.  From the click to the download: when the backend answers a JSON
    text between fences, with no fence inside, that decodes to a printable
    document of the contract without an ["error"] key, the session holds
    the decoded document and the preview column offers the bytes of its
    layout. *)
Theorem app_offers_the_fenced_document (now : Z) (key : string)
  (generate : string -> string -> result string)
  (resume_style user_input : string) (session : option value)
  (body : string) (data : value) (r : ResumeDocument) :
  truthy (VStr key) = true -> truthy (VStr user_input) = true ->
  generate "models/gemini-2.5-flash" (prompt user_input resume_style)
  = Ok (fence_json ++ body ++ fence) ->
  occurs fence body = false ->
  json_loads body = Ok data ->
  as_resume data = Some r ->
  printable r = true ->
  contains data "error" = Ok false ->
  exists drawn rest outcome,
    app now (Some key) generate resume_style user_input true session
    = (Some data,
       ((drawn ++ [st_success "Done!"; with_column 2; st_header "2. Preview";
                   download now r] ++ rest)%list, outcome)).
Proof.
  intros Hk Hi Hg Hf Hj Hr Hp Herr.
  destruct (app_submitted now key generate resume_style user_input session Hk Hi)
    as (drawn & ->).
  rewrite get_ai_resume_cases, Hg, (clean_text_fenced body Hf), Hj.
  assert (Hc : exists contact_data, get data "contact" (VDict []) = Ok contact_data).
  { destruct data as [| | | | | |kvs]; try discriminate Hr.
    rewrite get_or_else. eexists; reflexivity. }
  destruct Hc as (contact_data & Hc).
  destruct (preview_until_experience now data contact_data r Hr Hp Herr Hc)
    as (jobs & edus & _ & _ & ->).
  destruct (ui_for_each jobs preview_experience_body ;;;
            emit (st_subheader "Education") ;;;
            ui_for_each edus preview_education_body) as [rest outcome].
  exists drawn, (preview_top (truthy contact_data) r ++ rest)%list, outcome.
  cbn [ui_bind]. rewrite <- !app_assoc. reflexivity.
Qed.

Lemma app_offers_the_fenced_document_witness :
  exists drawn rest outcome,
    app 0 (Some "key") (answers (fence_json ++ jane_json ++ fence)) "Corporate"
        "notes" true None
    = (Some jane_data,
       ((drawn ++ [st_success "Done!"; with_column 2; st_header "2. Preview";
                   download 0 jane_data_document] ++ rest)%list, outcome)).
Proof.
  exact (app_offers_the_fenced_document 0 "key"
           (answers (fence_json ++ jane_json ++ fence)) "Corporate" "notes" None
           jane_json jane_data jane_data_document
           eq_refl eq_refl eq_refl eq_refl eq_refl eq_refl eq_refl eq_refl).
Defined.

(** ** The model scanner *)

Lemma list_loop_found (models : list Scan.model) :
  forall found,
    Scan.list_loop models found
    = (map (fun m => st_success ("✅ Found: " ++ Scan.name m))
         (filter Scan.generates models),
       found || existsb Scan.generates models).
Proof.
  induction models as [|m rest IH]; intros found.
  - cbn. rewrite orb_false_r. reflexivity.
  - cbn [Scan.list_loop filter existsb]. destruct (Scan.generates m).
    + rewrite IH. cbn. rewrite orb_true_r. reflexivity.
    + rewrite IH. reflexivity.
Qed.

(** X13.  A scan reports, in the order of the listing, one success for each
    model that supports ['generateContent'] and none for the others; it
    ends with the error of the listing when the listing raises, with the
    "no models" error when the listing ends and no model qualified, and
    with nothing more otherwise. *)
Theorem scan_reports_generating_models (models : list Scan.model)
  (failure : option exn) :
  Scan.scan_clicked models failure
  = (st_write (VStr "Ping Google Servers...")
       :: map (fun m => st_success ("✅ Found: " ++ Scan.name m))
            (filter Scan.generates models)
       ++ match failure, filter Scan.generates models with
          | Some e, _ => [st_error ("Error: " ++ exn_str e)]
          | None, [] =>
              [st_error "Connection successful, but no models listed. Check permissions."]
          | None, _ :: _ => []
          end)%list.
Proof.
  unfold Scan.scan_clicked. rewrite list_loop_found. cbn [orb].
  destruct failure as [e|]; [reflexivity|].
  induction models as [|m rest IH]; [reflexivity|].
  cbn [existsb filter]. destruct (Scan.generates m) eqn:E; [reflexivity|].
  cbn [orb]. injection IH as IH. apply app_inv_head in IH.
  rewrite IH. reflexivity.
Qed.

(** ** More on the preview and the cleaning *)

(** X14.  A dictionary with an ["error"] key is taken for a failure: the
    preview never offers a download for it, whatever else it holds, be it
    a whole document of the contract. *)
Theorem preview_error_key_hides_the_document (now : Z) (data : value) :
  contains data "error" = Ok true ->
  existsb is_download (fst (preview now (Some data))) = false.
Proof.
  intros H. unfold preview, emit, lift. rewrite H, !ui_bind_ok. cbn [fst snd].
  destruct (getitem_str data "error") as [message|e]; [|reflexivity].
  rewrite ui_bind_ok. cbn [fst snd].
  destruct (add (VStr "AI Error: ") message); reflexivity.
Qed.

Lemma preview_error_key_hides_the_document_witness :
  as_resume flagged_resume
  = Some {| name := Some "Jane Doe"; title := None; summary := None;
            contact := None; skills := None; education := Some [];
            experience := Some [] |}
  /\ existsb is_download (fst (preview 0 (Some flagged_resume))) = false.
Proof.
  split; [reflexivity|].
  apply (preview_error_key_hides_the_document 0 flagged_resume). reflexivity.
Defined.

(** X15.  An exception of [create_pdf] is not caught on the page: for a
    value without an ["error"] key that the renderer refuses, the preview
    shows its header and raises that exception; none of the sections is
    drawn. *)
Theorem preview_fails_with_the_renderer (now : Z) (data : value) (e : exn) :
  contains data "error" = Ok false ->
  create_pdf now data = Raise e ->
  preview now (Some data) = ([st_header "2. Preview"], Raise e).
Proof.
  intros H Hpdf. unfold preview, emit, lift. rewrite H, !ui_bind_ok. cbn [fst snd].
  unfold preview_document, lift. rewrite Hpdf. reflexivity.
Qed.

Lemma preview_fails_with_the_renderer_witness :
  preview 0 (Some job_without_details)
  = ([st_header "2. Preview"], Raise (KeyError (VStr "details"))).
Proof.
  apply (preview_fails_with_the_renderer 0 job_without_details
           (KeyError (VStr "details")));
    reflexivity.
Defined.

(** X16.  Cleaning a cleaned text changes nothing. *)
Theorem clean_text_idempotent (text : string) :
  clean_text (clean_text text) = clean_text text.
Proof.
  apply clean_text_without_fence.
  unfold clean_text. eapply replace_fence_leaves_none. apply Nat.le_refl.
Qed.


(** ** What the renderer refuses *)

(** X17.  [create_pdf] returns on the printable documents of the contract
    and on no other: a document with a text outside latin-1 among those
    the renderer draws, or with two education entries or more, makes it
    raise one of the two exceptions of the engine, and no bytes are
    returned. *)
Theorem create_pdf_refuses (now : Z) (data : value) (r : ResumeDocument) :
  as_resume data = Some r -> printable r = false ->
  exists e, create_pdf now data = Raise e /\ engine_error e = true.
Proof.
  intros H Hp. rewrite (create_pdf_draws now data r H). unfold draw.
  assert (R : exists e, run (layout r) FPDF_new = Raise e).
  { unfold printable in Hp. apply andb_false_iff in Hp. destruct Hp as [Hp|Hp].
    - apply run_outside_latin1, Hp.
    - apply run_layout_second_education. apply Nat.leb_gt in Hp. lia. }
  destruct R as (e & E). exists e. rewrite E. split; [reflexivity|].
  exact (run_raises _ _ _ E).
Qed.

Lemma create_pdf_refuses_witness :
  exists e, create_pdf 0 greek_skill = Raise e /\ engine_error e = true.
Proof.
  exact (create_pdf_refuses 0 greek_skill greek_skill_document eq_refl eq_refl).
Defined.
